(** * python-dotplot: a shallow embedding of [dotplot/__init__.py]

    The module defines one class, [DotPlot], that holds two data frames
    (dot sizes and dot colours), builds them from a long-form table
    ([parse_from_tidy_data]) and renders them with matplotlib ([plot]).

    Conventions of the embedding.
    - Python exceptions are values of [exn]; a computation that may raise
      has type [result A] = [exn + A].
    - A method that assigns to an attribute of [self] is a function from
      the object to the pair of its outcome and the object afterwards
      ([method A]).
    - Python numbers (ints and floats) are exact rationals [Q]; the
      rounding of IEEE doubles is not part of the model.
    - Python, pandas, numpy and matplotlib are not code of this
      repository: the operations the class calls are modelled in the
      modules [py], [pd], [np] and [mpl] from their documented behaviour.
      Of a drawing only what the class computes is kept (coordinates,
      sizes, colours, limits, ticks, labels); the style sheet is taken to
      be installed and the canvas calls to succeed. *)

From Stdlib Require Import String Ascii.
From Stdlib Require Import List Bool Arith ZArith QArith Qround Qminmax.
From Stdlib Require Import Lia Permutation Sorted Mergesort.
Import ListNotations.

Local Close Scope Q_scope.
Local Open Scope string_scope.
Local Open Scope list_scope.
Local Open Scope nat_scope.

(** ** Exceptions *)

Inductive exn : Type :=
| ValueError (msg : string)
| AttributeError (msg : string)
| KeyError (label : string)
| IndexError (msg : string).

Definition result (A : Type) : Type := (exn + A)%type.

Definition ret {A : Type} (a : A) : result A := inr a.
Definition raise {A : Type} (e : exn) : result A := inl e.

Definition bind {A B : Type} (m : result A) (k : A -> result B) : result B :=
  match m with
  | inl e => inl e
  | inr a => k a
  end.

Declare Scope result_scope.
Delimit Scope result_scope with result.
Notation "x <- m ;; k" := (bind m (fun x => k))
  (at level 61, m at next level, right associativity) : result_scope.
Local Open Scope result_scope.

Fixpoint mapM {A B : Type} (f : A -> result B) (l : list A) : result (list B) :=
  match l with
  | [] => ret []
  | a :: l' => b <- f a ;; bs <- mapM f l' ;; ret (b :: bs)
  end.

(** ** Python built-ins used by the class *)

Module py.

(** [l * n] on a list. *)
Definition list_mul {A : Type} (l : list A) (n : nat) : list A :=
  concat (repeat l n).

(** [list(range(lo, hi))] for [lo <= hi]. *)
Definition range (lo hi : nat) : list nat := seq lo (hi - lo).

(** [sorted] on a list of ints. *)
Definition sorted (l : list nat) : list nat := NatSort.sort l.

(** [s.split(sep)] for a one-character separator: the pieces between the
    occurrences of [sep]; a string without [sep] is its own single piece. *)
Fixpoint split (sep : ascii) (s : string) : list string :=
  match s with
  | EmptyString => [EmptyString]
  | String c s' =>
      if Ascii.eqb c sep then EmptyString :: split sep s'
      else match split sep s' with
           | [] => [String c EmptyString]
           | p :: ps => String c p :: ps
           end
  end.

(** [sep.join(l)]. *)
Definition join (sep : string) (l : list string) : string := String.concat sep l.

(** [s.startswith(p)]. *)
Definition startswith (s p : string) : bool := String.prefix p s.

(** [math.ceil(n / d)] for ints [n] and [d]: true division, then ceiling. *)
Definition ceil_div (n : Z) (d : positive) : Z := Qceiling (n # d).

(** [max([a, b])]: the first of the largest elements. *)
Definition max2 (a b : Q) : Q := if Qle_bool b a then a else b.

(** [max] and [min] of a non-empty sequence of numbers. *)
Definition max_seq (x : Q) (xs : list Q) : Q :=
  fold_left (fun m y => if Qle_bool y m then m else y) xs x.
Definition min_seq (x : Q) (xs : list Q) : Q :=
  fold_left (fun m y => if Qle_bool m y then m else y) xs x.

End py.

(** ** pandas *)

Module pd.

(** A data frame: row labels, column labels and the cells, row by row.
    [C] is the type of column labels (strings, or pairs for the two-level
    columns that [pivot] returns), [V] the type of cells. *)
Record DataFrame (C V : Type) : Type := mkDataFrame {
  index : list string;
  columns : list C;
  values : list (list V)
}.
Arguments mkDataFrame {C V} _ _ _.
Arguments index {C V} _.
Arguments columns {C V} _.
Arguments values {C V} _.

(** [df.shape] *)
Definition shape {C V : Type} (df : DataFrame C V) : nat * nat :=
  (length (index df), length (columns df)).

Definition shape_eqb (s t : nat * nat) : bool :=
  Nat.eqb (fst s) (fst t) && Nat.eqb (snd s) (snd t).

(** [df.values.flatten()]: the cells in row-major order. *)
Definition flatten {C V : Type} (df : DataFrame C V) : list V :=
  concat (values df).

(** [df.applymap(func)]: a new frame, the argument is left as it is. *)
Definition applymap {C V W : Type} (func : V -> W) (df : DataFrame C V) : DataFrame C W :=
  mkDataFrame (index df) (columns df) (map (map func) (values df)).

(** [df.fillna(v)] on a frame whose missing cells are [None]. *)
Definition fillna {C V : Type} (v : V) (df : DataFrame C (option V)) : DataFrame C V :=
  applymap (fun c => match c with Some x => x | None => v end) df.

(** [df.columns = df.columns.map(f)] *)
Definition map_columns {C D V : Type} (f : C -> D) (df : DataFrame C V) : DataFrame D V :=
  mkDataFrame (index df) (map f (columns df)) (values df).

(** Selection of the positions of [l] where the boolean mask is [True]. *)
Fixpoint select {A : Type} (mask : list bool) (l : list A) : list A :=
  match mask, l with
  | b :: mask', x :: l' => if b then x :: select mask' l' else select mask' l'
  | _, _ => []
  end.

(** [df.loc[:, mask]] with a boolean mask over the columns. *)
Definition loc_cols {C V : Type} (mask : list bool) (df : DataFrame C V) : DataFrame C V :=
  mkDataFrame (index df) (select mask (columns df)) (map (select mask) (values df)).

(** [df.columns.str.startswith(key)] *)
Definition str_startswith (key : string) (cols : list string) : list bool :=
  map (fun c => py.startswith c key) cols.

(** The rows of [df] carrying the label [l], in frame order. *)
Definition rows_labelled {V : Type} (l : string) (ix : list string) (vs : list (list V))
  : list (list V) :=
  map snd (filter (fun p => String.eqb (fst p) l) (combine ix vs)).

(** [df.loc[labels, :]] with a list of row labels: for each requested
    label, in the order of the list, every row carrying it; a label that
    is on no row raises [KeyError]. *)
Definition loc_rows {C V : Type} (labels : list string) (df : DataFrame C V)
  : result (DataFrame C V) :=
  picked <- mapM (fun l =>
                    match rows_labelled l (index df) (values df) with
                    | [] => raise (KeyError l)
                    | rs => ret (map (pair l) rs)
                    end) labels ;;
  ret (mkDataFrame (map fst (concat picked)) (columns df) (map snd (concat picked))).

(** [Series.unique()]: the distinct labels in the order of their first
    appearance. *)
Fixpoint unique (l : list string) : list string :=
  match l with
  | [] => []
  | x :: l' => x :: filter (fun y => negb (String.eqb x y)) (unique l')
  end.

(** Sorting of labels, strings being compared character code by
    character code. *)
Fixpoint insert_label (s : string) (l : list string) : list string :=
  match l with
  | [] => [s]
  | x :: l' => if String.leb s x then s :: l else x :: insert_label s l'
  end.

Definition sort_labels (l : list string) : list string :=
  fold_right insert_label [] l.

(** Axis labels of a pivoted frame: the distinct labels, sorted. *)
Definition sorted_unique (l : list string) : list string :=
  sort_labels (unique l).

(** One record of a long-form table, read through the four keys that
    [parse_from_tidy_data] receives: [item r] is the cell under
    [item_key], [group r] the cell under [group_key], [sizes r] the cell
    under [sizes_key] and [color r] the cell under [color_key].  The four
    keys are taken to name four different columns of the table, and the
    labels to be strings. *)
Record TidyRow : Type := mkTidyRow {
  item : string;
  group : string;
  sizes : Q;
  color : Q
}.

Definition same_entry (r r' : TidyRow) : bool :=
  String.eqb (item r) (item r') && String.eqb (group r) (group r').

(** Some (item, group) pair is on two records. *)
Fixpoint has_duplicate_entries (rows : list TidyRow) : bool :=
  match rows with
  | [] => false
  | r :: rows' => existsb (same_entry r) rows' || has_duplicate_entries rows'
  end.

(** The cell of the pivoted frame at row [i], column [(key, g)]: the value
    of the record of item [i] and group [g], missing when there is none. *)
Definition pivot_cell (rows : list TidyRow) (field : TidyRow -> Q) (i g : string)
  : option Q :=
  option_map field
    (find (fun r => String.eqb (item r) i && String.eqb (group r) g) rows).

(** [df.pivot(index=item_key, columns=group_key, values=[k1, k2])], with
    [f1] and [f2] reading the cells under [k1] and [k2]: one row per
    distinct item and, for each of the two value keys in turn, one column
    [(key, g)] per distinct group, both axes sorted; [ValueError] when an
    (item, group) pair occurs twice. *)
Definition pivot (k1 k2 : string) (f1 f2 : TidyRow -> Q) (rows : list TidyRow)
  : result (DataFrame (string * string) (option Q)) :=
  if has_duplicate_entries rows
  then raise (ValueError "Index contains duplicate entries, cannot reshape")
  else
    let items := sorted_unique (map item rows) in
    let groups := sorted_unique (map group rows) in
    ret (mkDataFrame items
           (map (pair k1) groups ++ map (pair k2) groups)
           (map (fun i => map (pivot_cell rows f1 i) groups
                          ++ map (pivot_cell rows f2 i) groups) items)).

End pd.

(** ** numpy and matplotlib *)

Module np.

(** [a.max()] and [a.min()] where [a] is what [get_array()] returned:
    [None] has no such attribute, and an empty array has no maximum. *)
Definition array_max (a : option (list Q)) : result Q :=
  match a with
  | None => raise (AttributeError "'NoneType' object has no attribute 'max'")
  | Some [] =>
      raise (ValueError "zero-size array to reduction operation maximum which has no identity")
  | Some (x :: xs) => ret (py.max_seq x xs)
  end.

Definition array_min (a : option (list Q)) : result Q :=
  match a with
  | None => raise (AttributeError "'NoneType' object has no attribute 'min'")
  | Some [] =>
      raise (ValueError "zero-size array to reduction operation minimum which has no identity")
  | Some (x :: xs) => ret (py.min_seq x xs)
  end.

(** One position of an integer-array index: negative positions count
    from the end, a position outside the array raises [IndexError]. *)
Definition item_at {A : Type} (a : list A) (i : Z) : result A :=
  let n := Z.of_nat (length a) in
  let j := (if i <? 0 then i + n else i)%Z in
  if ((j <? 0) || (n <=? j))%Z
  then raise (IndexError "index is out of bounds")
  else match nth_error a (Z.to_nat j) with
       | Some x => ret x
       | None => raise (IndexError "index is out of bounds")
       end.

(** [a[[i1, ..., ik]]] on a one-dimensional array. *)
Definition take {A : Type} (a : list A) (idx : list Z) : result (list A) :=
  mapM (item_at a) idx.

End np.

Module mpl.

(** The [c] argument of [scatter]: a colour name, or one number per point
    to be mapped through the colour map. *)
Inductive color_arg : Type :=
| ColorName (name : string)
| ColorValues (vs : list Q).

(** What the class reads back from the collection that [scatter] returns. *)
Record PathCollection : Type := mkPathCollection {
  offsets : list (nat * nat);
  get_sizes : list Q;
  facecolor : color_arg;
  get_cmap : string;
  get_clim : option Q * option Q
}.

(** [ax.scatter(X, Y, c=c, s=s, cmap=cmap, vmin=vmin, vmax=vmax)] *)
Definition scatter (X Y : list nat) (c : color_arg) (s : list Q) (cmap : string)
    (vmin vmax : option Q) : PathCollection :=
  mkPathCollection (combine X Y) s c cmap (vmin, vmax).

(** [sct.get_array()]: the numbers given as [c]; [None] when [c] was a
    colour, since then nothing is colour-mapped. *)
Definition get_array (sct : PathCollection) : option (list Q) :=
  match facecolor sct with
  | ColorName _ => None
  | ColorValues vs => Some vs
  end.

(** A legend handle: a marker of a given size and colour. *)
Record Handle : Type := mkHandle {
  markersize : Q;
  markercolor : string
}.

End mpl.

(** ** The class [DotPlot] *)

Definition Frame : Type := pd.DataFrame string Q.

(** The attributes of an object.  [resized_size_data] is only annotated in
    [__init__]: it is unset ([None]) until [plot] assigns it. *)
Record DotPlot : Type := mkDotPlot {
  size_data : Frame;
  color_data : option Frame;
  height_item : nat;
  width_item : nat;
  resized_size_data : option Frame
}.

Definition DEFAULT_ITEM_HEIGHT : Q := 3 # 10.
Definition DEFAULT_ITEM_WIDTH : Q := 35 # 100.
Definition DEFAULT_LEGENDS_WIDTH : Q := 5 # 10.
Definition MIN_FIGURE_HEIGHT : Q := 3.

(** [df_color.shape] where [df_color] may be [None]. *)
Definition shape_attr (df : option Frame) : result (nat * nat) :=
  match df with
  | None => raise (AttributeError "'NoneType' object has no attribute 'shape'")
  | Some d => ret (pd.shape d)
  end.

(** [DotPlot.__init__].  The guard is
    [(df_color is not None) & (df_size.shape != df_color.shape)]: [&] is
    not a short-circuit operator, both operands are evaluated before it
    is applied. *)
Definition __init__ (df_size : Frame) (df_color : option Frame) : result DotPlot :=
  let lhs := match df_color with None => false | Some _ => true end in
  color_shape <- shape_attr df_color ;;
  let rhs := negb (pd.shape_eqb (pd.shape df_size) color_shape) in
  if lhs && rhs
  then raise (ValueError "df_size and df_color should have the same dimension")
  else ret (mkDotPlot df_size df_color
              (fst (pd.shape df_size)) (snd (pd.shape df_size)) None).

(** The two lambdas of [parse_from_tidy_data] on column labels. *)
Definition flatten_label (x : string * string) : string :=
  py.join "_" [fst x; snd x].

Definition strip_key (x : string) : string :=
  py.join "_" (tl (py.split "_" x)).

(** A record with the cell under [sizes_key], or under [color_key],
    replaced. *)
Definition set_sizes (r : pd.TidyRow) (v : Q) : pd.TidyRow :=
  pd.mkTidyRow (pd.item r) (pd.group r) v (pd.color r).

Definition set_color (r : pd.TidyRow) (v : Q) : pd.TidyRow :=
  pd.mkTidyRow (pd.item r) (pd.group r) (pd.sizes r) v.

(** [data_frame[key] = data_frame[key].map(func)] when [func] is given. *)
Definition map_series (func : option (Q -> Q)) (get : pd.TidyRow -> Q)
    (set : pd.TidyRow -> Q -> pd.TidyRow) (rows : list pd.TidyRow) : list pd.TidyRow :=
  match func with
  | Some f => map (fun r => set r (f (get r))) rows
  | None => rows
  end.

(** [DotPlot.parse_from_tidy_data], for calls that leave [selected_group]
    at its default [None].  [data_frame] is the table already read through
    the four keys (see [pd.TidyRow]). *)
Definition parse_from_tidy_data (data_frame : list pd.TidyRow)
    (sizes_key color_key : string) (selected_item : option (list string))
    (sizes_func color_func : option (Q -> Q)) : result DotPlot :=
  let _original_item_order := map pd.item data_frame in
  let _original_item_order := rev _original_item_order in
  let data_frame := map_series sizes_func pd.sizes set_sizes data_frame in
  let data_frame := map_series color_func pd.color set_color data_frame in
  data_frame <- pd.pivot color_key sizes_key pd.color pd.sizes data_frame ;;
  data_frame <- pd.loc_rows _original_item_order data_frame ;;
  data_frame <- match selected_item with
                | Some labels => pd.loc_rows labels data_frame
                | None => ret data_frame
                end ;;
  let data_frame := pd.map_columns flatten_label data_frame in
  let data_frame := pd.fillna 0%Q data_frame in
  let color_df :=
    pd.loc_cols (pd.str_startswith color_key (pd.columns data_frame)) data_frame in
  let sizes_df :=
    pd.loc_cols (pd.str_startswith sizes_key (pd.columns data_frame)) data_frame in
  let color_df := pd.map_columns strip_key color_df in
  let sizes_df := pd.map_columns strip_key sizes_df in
  __init__ color_df (Some sizes_df).

(** *** Methods that read and assign attributes of [self] *)

Definition method (A : Type) : Type := DotPlot -> result A * DotPlot.

Definition mret {A : Type} (a : A) : method A := fun self => (inr a, self).

Definition mbind {A B : Type} (m : method A) (k : A -> method B) : method B :=
  fun self =>
    match m self with
    | (inl e, self') => (inl e, self')
    | (inr a, self') => k a self'
    end.

Definition lift {A : Type} (r : result A) : method A := fun self => (r, self).

Definition get_self : method DotPlot := fun self => (inr self, self).

Definition set_resized_size_data (v : Frame) : method unit :=
  fun self =>
    (inr tt, mkDotPlot (size_data self) (color_data self)
               (height_item self) (width_item self) (Some v)).

Declare Scope method_scope.
Delimit Scope method_scope with method.
Notation "x <~ m ;; k" := (mbind m (fun x => k))
  (at level 61, m at next level, right associativity) : method_scope.
Local Open Scope method_scope.

(** The figure and its grid, as [__get_figure] sets them up: the size of
    the figure and the width ratios of the two columns of the grid. *)
Record Figure : Type := mkFigure {
  figsize : Q * Q;
  width_ratios : list Q
}.

(** [self.size_data.index.map(len).max()], then [math.ceil(... / 15)].
    The maximum of no label at all is NaN, which [math.ceil] rejects. *)
Definition text_max (labels : list string) : result Z :=
  match map String.length labels with
  | [] => raise (ValueError "cannot convert float NaN to integer")
  | n :: ns => ret (py.ceil_div (Z.of_nat (fold_left Nat.max ns n)) 15)
  end.

(** [DotPlot.__get_figure] *)
Definition __get_figure (self : DotPlot) : result Figure :=
  _text_max <- text_max (pd.index (size_data self)) ;;
  let mainplot_height := (inject_Z (Z.of_nat (height_item self)) * DEFAULT_ITEM_HEIGHT)%Q in
  let mainplot_width :=
    ((inject_Z _text_max + inject_Z (Z.of_nat (width_item self))) * DEFAULT_ITEM_WIDTH)%Q in
  let figure_height := py.max2 MIN_FIGURE_HEIGHT mainplot_height in
  let figure_width := (mainplot_width + DEFAULT_LEGENDS_WIDTH)%Q in
  ret (mkFigure (figure_width, figure_height) [mainplot_width; DEFAULT_LEGENDS_WIDTH]).

(** [DotPlot.__get_coordinates] *)
Definition __get_coordinates (size_factor : Q) : method (list nat * list nat) :=
  self <~ get_self ;;
  let X := py.list_mul (py.range 1 (width_item self + 1)) (height_item self) in
  let Y := py.sorted (py.list_mul (py.range 1 (height_item self + 1)) (width_item self)) in
  _ <~ set_resized_size_data
         (pd.applymap (fun x => (x * size_factor)%Q) (size_data self)) ;;
  mret (X, Y).

(** The settings [__draw_dotplot] gives to the main axes. *)
Record AxesConfig : Type := mkAxesConfig {
  xlim : Q * Q;
  ylim : Q * Q;
  xticks : list nat;
  yticks : list nat;
  xticklabels : list string;
  yticklabels : list string
}.

(** [self.resized_size_data.values.flatten()] *)
Definition resized_flat (self : DotPlot) : result (list Q) :=
  match resized_size_data self with
  | None => raise (AttributeError "'DotPlot' object has no attribute 'resized_size_data'")
  | Some df => ret (pd.flatten df)
  end.

(** [DotPlot.__draw_dotplot] *)
Definition __draw_dotplot (size_factor : Q) (cmap : string) (vmin vmax : option Q)
  : method (mpl.PathCollection * AxesConfig) :=
  XY <~ __get_coordinates size_factor ;;
  let X := fst XY in
  let Y := snd XY in
  self <~ get_self ;;
  s <~ lift (resized_flat self) ;;
  let sct :=
    match color_data self with
    | None => mpl.scatter X Y (mpl.ColorName "r") s cmap vmin vmax
    | Some color => mpl.scatter X Y (mpl.ColorValues (pd.flatten color)) s cmap vmin vmax
    end in
  let width := width_item self in
  let height := height_item self in
  mret (sct,
        mkAxesConfig
          (5 # 10, inject_Z (Z.of_nat width) + (5 # 10))%Q
          (6 # 10, inject_Z (Z.of_nat height) + (6 # 10))%Q
          (py.range 1 (width + 1)) (py.range 1 (height + 1))
          (pd.columns (size_data self)) (pd.index (size_data self))).

(** The colour bar's second axis. *)
Record ColorBar : Type := mkColorBar {
  cbar_yticks : list Z;
  cbar_yticklabels : list Q;
  cbar_ylabel : string
}.

(** [DotPlot.__draw_color_bar] *)
Definition __draw_color_bar (sct : mpl.PathCollection) (cmap : string)
    (vmin vmax : option Q) : result ColorBar :=
  vmax <- match vmax with
          | None => m <- np.array_max (mpl.get_array sct) ;; ret (inject_Z (Qceiling m))
          | Some v => ret v
          end ;;
  vmin <- match vmin with
          | None => m <- np.array_min (mpl.get_array sct) ;; ret (inject_Z (Qfloor m))
          | Some v => ret v
          end ;;
  ret (mkColorBar [0%Z; 1000%Z] [vmin; vmax] "-log10(pvalue)").

(** The legend panel. *)
Record Legend : Type := mkLegend {
  legend_handles : list mpl.Handle;
  legend_labels : list string;
  legend_title : string
}.

(** [math.ceil(len(l) / 2)] *)
Definition middle_index {A : Type} (l : list A) : Z :=
  py.ceil_div (Z.of_nat (length l)) 2.

(** The body of [__draw_legend] after the call of [legend_elements]. *)
Definition reduce_legend (handles : list mpl.Handle) (labels : list string)
  : result Legend :=
  hl <- (if Nat.ltb 3 (length handles)
         then
           handles' <- np.take handles [0%Z; middle_index handles; (-1)%Z] ;;
           labels' <- np.take labels [0%Z; middle_index labels; (-1)%Z] ;;
           ret (handles', labels')
         else ret (handles, labels)) ;;
  ret (mkLegend (fst hl) (snd hl) "Sizes").

(** The arguments of a call of [plot]; [None] stands for an argument the
    caller did not pass.  [vmin], [vmax] and [path] may themselves be
    passed as [None]. *)
Record PlotArgs : Type := mkPlotArgs {
  arg_size_factor : option Q;
  arg_vmin : option (option Q);
  arg_vmax : option (option Q);
  arg_path : option (option string);
  arg_cmap : option string
}.

Definition default {A : Type} (d : A) (arg : option A) : A :=
  match arg with
  | Some a => a
  | None => d
  end.

(** Everything one call of [plot] draws. *)
Record Rendering : Type := mkRendering {
  figure : Figure;
  scatter : mpl.PathCollection;
  axes : AxesConfig;
  legend : Legend;
  color_bar : ColorBar;
  saved_to : option string
}.

(** Truth value of [path] in [if path:]. *)
Definition truthy (path : option string) : option string :=
  match path with
  | Some EmptyString => None
  | p => p
  end.

Section Render.

(** [sct.legend_elements(prop="sizes", alpha=1, func=func, color=color)]:
    matplotlib chooses the representative sizes; the class only relies on
    getting the handles and their labels as two lists in the same order. *)
Variable legend_elements :
  mpl.PathCollection -> (Q -> Q) -> string -> list mpl.Handle * list string.

(** [DotPlot.__draw_legend] *)
Definition __draw_legend (sct : mpl.PathCollection) (size_factor : Q) : result Legend :=
  let hl := legend_elements sct (fun x => (x / size_factor)%Q) "#58000C" in
  reduce_legend (fst hl) (snd hl).

(** [DotPlot.plot], with the defaults of its signature:
    [size_factor=15], [vmin=0], [vmax=None], [path=None], [cmap='Reds']. *)
Definition plot (args : PlotArgs) : method Rendering :=
  let size_factor := default 15%Q (arg_size_factor args) in
  let vmin := default (Some 0%Q) (arg_vmin args) in
  let vmax := default None (arg_vmax args) in
  let path := default None (arg_path args) in
  let cmap := default "Reds" (arg_cmap args) in
  self <~ get_self ;;
  fig <~ lift (__get_figure self) ;;
  drawn <~ __draw_dotplot size_factor cmap vmin vmax ;;
  lg <~ lift (__draw_legend (fst drawn) size_factor) ;;
  cb <~ lift (__draw_color_bar (fst drawn) cmap vmin vmax) ;;
  mret (mkRendering fig (fst drawn) (snd drawn) lg cb (truthy path)).

End Render.

(** * Definitions for the statements *)

(** ** Coordinates *)

(** The order that [py.sorted] sorts by. *)
Definition leb_rel : nat -> nat -> Prop := fun x y => is_true (Nat.leb x y).

(** Each of [a, a+1, ..., a+n-1] repeated [w] times, in increasing order. *)
Definition blocks (w a n : nat) : list nat :=
  flat_map (fun y => repeat y w) (seq a n).

(** The grid [{1..w} x {a..a+h-1}], row by row, [x] running fastest. *)
Definition grid (w a h : nat) : list (nat * nat) :=
  flat_map (fun y => map (fun x => (x, y)) (seq 1 w)) (seq a h).

(** ** Rendering *)

(** The object with [resized_size_data] recomputed for [size_factor]. *)
Definition resized (size_factor : Q) (self : DotPlot) : DotPlot :=
  mkDotPlot (size_data self) (color_data self) (height_item self) (width_item self)
    (Some (pd.applymap (fun x => (x * size_factor)%Q) (size_data self))).

(** Least and greatest element of a list of numbers. *)
Definition least (m : Q) (l : list Q) : Prop :=
  In m l /\ forall y, In y l -> (m <= y)%Q.

Definition greatest (m : Q) (l : list Q) : Prop :=
  In m l /\ forall y, In y l -> (y <= m)%Q.

(** The tick label of a bound of the colour bar: the value that [plot]
    received for it, or the one inferred from the colours when that value
    is [None]. *)
Definition bound_label (bound : option Q) (inferred : Z) : Q :=
  match bound with
  | Some v => v
  | None => inject_Z inferred
  end.

(** The first, the ceil(n/2)-th and the last of the [n] entries, the
    first being entry number one. *)
Definition first_middle_last {A : Type} (l : list A) : list A :=
  let n := length l in
  match nth_error l 0, nth_error l ((n + 1) / 2 - 1), nth_error l (n - 1) with
  | Some a, Some b, Some c => [a; b; c]
  | _, _, _ => l
  end.

(** ** Column labels and cells *)

(** What follows the first underscore of a string; nothing when there is
    no underscore. *)
Fixpoint after_underscore (s : string) : string :=
  match s with
  | EmptyString => EmptyString
  | String c s' => if Ascii.eqb c "_" then s' else after_underscore s'
  end.

(** The string holds an underscore. *)
Fixpoint has_underscore (s : string) : bool :=
  match s with
  | EmptyString => false
  | String c s' => Ascii.eqb c "_" || has_underscore s'
  end.

(** The flattened column labels of the pivoted frame: for each group the
    label under the colour key, then for each group the label under the
    size key. *)
Definition flat_columns (sizes_key color_key : string) (groups : list string)
  : list string :=
  map flatten_label (map (pair color_key) groups ++ map (pair sizes_key) groups).

(** The columns whose flattened label starts with [key], stripped. *)
Definition stripped_columns (key : string) (cols : list string) : list string :=
  map strip_key (filter (fun c => py.startswith c key) cols).

(** The cell of a frame after [fillna(0)]. *)
Definition filled (cell : option Q) : Q :=
  match cell with
  | Some v => v
  | None => 0%Q
  end.

(** ** Tables and frames *)

(** The (item, group) pair that a record is about. *)
Definition entry (r : pd.TidyRow) : string * string := (pd.item r, pd.group r).

(** The table after the optional transforms of its size and colour
    columns. *)
Definition transformed (sizes_func color_func : option (Q -> Q)) (r : pd.TidyRow)
  : pd.TidyRow :=
  pd.mkTidyRow (pd.item r) (pd.group r)
    (match sizes_func with Some f => f (pd.sizes r) | None => pd.sizes r end)
    (match color_func with Some f => f (pd.color r) | None => pd.color r end).

(** The position of the first occurrence of a label on an axis. *)
Fixpoint position (l : string) (axis : list string) : nat :=
  match axis with
  | [] => 0
  | x :: axis' => if String.eqb x l then 0 else S (position l axis')
  end.

(** The cell of a frame on the first row labelled [i], under the first
    column labelled [g]. *)
Definition cell_at (df : Frame) (i g : string) : option Q :=
  match pd.rows_labelled i (pd.index df) (pd.values df) with
  | [] => None
  | row :: _ => nth_error row (position g (pd.columns df))
  end.

(** How often a label occurs on an axis. *)
Definition occurrences (l : string) (axis : list string) : nat :=
  length (filter (fun a => String.eqb a l) axis).



(** ** Example data *)

(** Sizes [[1,2],[3,4]] and colours [[2.5,7],[9,5.25]] for the items a, b
    and the groups x, y. *)
Definition example_sizes : Frame :=
  pd.mkDataFrame ["a"; "b"] ["x"; "y"] [[1; 2]; [3; 4]]%Q.

Definition example_colors : Frame :=
  pd.mkDataFrame ["a"; "b"] ["x"; "y"] [[5 # 2; 7]; [9; 21 # 4]]%Q.

Definition example_plot : DotPlot :=
  mkDotPlot example_sizes (Some example_colors) 2 2 None.

(** Calls of [plot]: without arguments, and with [size_factor=10]. *)
Definition no_args : PlotArgs := mkPlotArgs None None None None None.

Definition size_factor_10 : PlotArgs := mkPlotArgs (Some 10%Q) None None None None.

(** Four legend entries, labelled 1 to 4. *)
Definition four_handles : list mpl.Handle :=
  [mpl.mkHandle 1 "#58000C"; mpl.mkHandle 2 "#58000C";
   mpl.mkHandle 3 "#58000C"; mpl.mkHandle 4 "#58000C"].

Definition four_labels : list string := ["1"; "2"; "3"; "4"].

Definition four_entries (_ : mpl.PathCollection) (_ : Q -> Q) (_ : string)
  : list mpl.Handle * list string := (four_handles, four_labels).

Definition example_scatter : mpl.PathCollection :=
  mpl.scatter [1; 2; 1; 2] [1; 1; 2; 2] (mpl.ColorValues (pd.flatten example_colors))
    [1; 2; 3; 4]%Q "Reds" (Some 0%Q) None.

(** One record: item a, group x, size 1, colour 2. *)
Definition one_record : list pd.TidyRow := [pd.mkTidyRow "a" "x" 1 2].

(** Item a in two groups. *)
Definition one_item_two_groups : list pd.TidyRow :=
  [pd.mkTidyRow "a" "x" 1 2; pd.mkTidyRow "a" "y" 3 4].

(** * Properties *)

(** ** Lists: repetition, sorting, the grid *)

Lemma leb_rel_le (x y : nat) : leb_rel x y <-> x <= y.
Proof. unfold leb_rel, is_true. apply Nat.leb_le. Qed.

Lemma leb_rel_trans : Relations_1.Transitive leb_rel.
Proof.
  intros x y z Hxy Hyz. apply leb_rel_le in Hxy, Hyz. apply leb_rel_le. lia.
Qed.

(** Two sorted lists with the same elements are the same list. *)
Lemma sorted_permutation_eq (l l' : list nat) :
  StronglySorted leb_rel l -> StronglySorted leb_rel l' -> Permutation l l' -> l = l'.
Proof.
  intros Hl. revert l'. induction Hl as [| a t Ht IH Ha]; intros l' Hl' HP.
  - symmetry. now apply Permutation_nil.
  - destruct Hl' as [| b t' Ht' Hb].
    + apply Permutation_sym, Permutation_nil in HP. discriminate.
    + assert (Hab : a = b).
      { assert (Hin1 : In a (b :: t')) by (eapply Permutation_in; [exact HP | now left]).
        assert (Hin2 : In b (a :: t))
          by (eapply Permutation_in; [apply Permutation_sym; exact HP | now left]).
        destruct Hin1 as [-> | Hin1]; [reflexivity |].
        destruct Hin2 as [-> | Hin2]; [reflexivity |].
        rewrite Forall_forall in Ha, Hb.
        specialize (Ha _ Hin2). specialize (Hb _ Hin1).
        apply leb_rel_le in Ha, Hb. lia. }
      subst b. f_equal. apply IH; [assumption |].
      eapply Permutation_cons_inv; exact HP.
Qed.

Lemma sorted_app (l r : list nat) :
  StronglySorted leb_rel l -> StronglySorted leb_rel r ->
  (forall x y, In x l -> In y r -> x <= y) ->
  StronglySorted leb_rel (l ++ r).
Proof.
  intros Hl Hr Hlr. induction Hl as [| a t Ht IH Ha]; simpl; [assumption |].
  constructor.
  - apply IH. intros x y Hx Hy. apply Hlr; [now right | assumption].
  - apply Forall_app. split; [assumption |].
    apply Forall_forall. intros y Hy. apply leb_rel_le. apply Hlr; [now left | assumption].
Qed.

Lemma sorted_repeat (a n : nat) : StronglySorted leb_rel (repeat a n).
Proof.
  induction n as [| n IH]; simpl; constructor; [assumption |].
  apply Forall_forall. intros y Hy. apply repeat_spec in Hy. subst y.
  apply leb_rel_le. lia.
Qed.

Lemma in_blocks (w a n y : nat) : In y (blocks w a n) -> a <= y < a + n.
Proof.
  unfold blocks. rewrite in_flat_map. intros [x [Hx Hy]].
  apply repeat_spec in Hy. subst y. now apply in_seq in Hx.
Qed.

Lemma sorted_blocks (w n a : nat) : StronglySorted leb_rel (blocks w a n).
Proof.
  revert a. induction n as [| n IH]; intros a; unfold blocks; simpl; [constructor |].
  apply sorted_app; [apply sorted_repeat | apply IH |].
  intros x y Hx Hy. apply repeat_spec in Hx. subst x.
  apply in_blocks in Hy. lia.
Qed.

Lemma blocks_permutation (w : nat) (l : list nat) :
  Permutation (py.list_mul l w) (flat_map (fun y => repeat y w) l).
Proof.
  unfold py.list_mul. induction w as [| w IH]; simpl.
  - induction l as [| x l IHl]; simpl; [constructor | assumption].
  - transitivity (l ++ flat_map (fun y => repeat y w) l).
    + now apply Permutation_app_head.
    + clear IH. induction l as [| x l IHl]; simpl; [constructor |].
      constructor.
      transitivity (repeat x w ++ l ++ flat_map (fun y => repeat y w) l).
      * rewrite !app_assoc. apply Permutation_app_tail. apply Permutation_app_comm.
      * now apply Permutation_app_head.
Qed.

(** [sorted(list(range(a, a+n)) * w)] lists every value [w] times in turn. *)
Lemma sorted_list_mul (w a n : nat) :
  py.sorted (py.list_mul (seq a n) w) = blocks w a n.
Proof.
  unfold py.sorted. apply sorted_permutation_eq.
  - apply NatSort.StronglySorted_sort. exact leb_rel_trans.
  - apply sorted_blocks.
  - transitivity (py.list_mul (seq a n) w).
    + apply Permutation_sym, NatSort.Permuted_sort.
    + apply blocks_permutation.
Qed.

Lemma combine_repeat {A B : Type} (l : list A) (b : B) :
  combine l (repeat b (length l)) = map (fun x => (x, b)) l.
Proof. induction l as [| x l IH]; simpl; [reflexivity | now rewrite IH]. Qed.

Lemma combine_app_eq {A B : Type} (l1 l2 : list A) (r1 r2 : list B) :
  length l1 = length r1 ->
  combine (l1 ++ l2) (r1 ++ r2) = combine l1 r1 ++ combine l2 r2.
Proof.
  revert r1. induction l1 as [| x l1 IH]; intros [| y r1] Hlen; simpl in *;
    try discriminate; [reflexivity |].
  f_equal. apply IH. now injection Hlen.
Qed.

Lemma combine_grid (w h a : nat) :
  combine (py.list_mul (seq 1 w) h) (blocks w a h) = grid w a h.
Proof.
  unfold py.list_mul, blocks, grid. revert a.
  induction h as [| h IH]; intros a; simpl; [reflexivity |].
  rewrite combine_app_eq by now rewrite repeat_length, length_seq.
  rewrite IH. f_equal.
  replace (repeat a w) with (repeat a (length (seq 1 w))) by now rewrite length_seq.
  apply combine_repeat.
Qed.

Lemma in_grid (w a h x y : nat) :
  In (x, y) (grid w a h) <-> 1 <= x <= w /\ a <= y < a + h.
Proof.
  unfold grid. rewrite in_flat_map. split.
  - intros [y' [Hy' Hin]]. apply in_map_iff in Hin. destruct Hin as [x' [Heq Hx']].
    injection Heq as <- <-. apply in_seq in Hy', Hx'. lia.
  - intros [Hx Hy]. exists y. split; [apply in_seq; lia |].
    apply in_map_iff. exists x. split; [reflexivity | apply in_seq; lia].
Qed.

Lemma NoDup_grid (w h a : nat) : NoDup (grid w a h).
Proof.
  unfold grid. revert a. induction h as [| h IH]; intros a; simpl; [constructor |].
  apply NoDup_app.
  - apply NoDup_map_NoDup_ForallPairs; [| apply seq_NoDup].
    intros x x' _ _ Heq. now injection Heq.
  - apply IH.
  - intros [x y] Hin1 Hin2. apply in_map_iff in Hin1. destruct Hin1 as [x' [Heq _]].
    injection Heq as _ <-. apply (in_grid w (S a) h x a) in Hin2. lia.
Qed.

Lemma range_from_1 (n : nat) : py.range 1 (n + 1) = seq 1 n.
Proof. unfold py.range. f_equal. lia. Qed.

Lemma length_list_mul {A : Type} (l : list A) (n : nat) :
  length (py.list_mul l n) = n * length l.
Proof.
  unfold py.list_mul. induction n as [| n IH]; simpl; [reflexivity |].
  now rewrite length_app, IH.
Qed.

Lemma length_blocks (w a n : nat) : length (blocks w a n) = n * w.
Proof.
  unfold blocks. rewrite (flat_map_constant_length (c := w)).
  - now rewrite length_seq.
  - intros y _. apply repeat_length.
Qed.

(** ** Coordinates *)

(** C7. For an object of [H] items and [W] groups, [__get_coordinates]
    returns two lists [X] and [Y] of [H * W] entries each whose pairs
    [(x, y)] are the grid [{1..W} x {1..H}] listed row by row with [x]
    running fastest: no pair twice, and every pair of the grid present. *)
Theorem get_coordinates_grid (self : DotPlot) (size_factor : Q) :
  let H := height_item self in
  let W := width_item self in
  exists X Y self',
    __get_coordinates size_factor self = (inr (X, Y), self') /\
    length X = H * W /\ length Y = H * W /\
    combine X Y = grid W 1 H /\
    NoDup (combine X Y) /\
    (forall x y, In (x, y) (combine X Y) <-> (1 <= x <= W /\ 1 <= y <= H)).
Proof.
  intros H W. unfold __get_coordinates, mbind, get_self, set_resized_size_data, mret.
  do 3 eexists. split; [reflexivity |].
  fold H W. rewrite !range_from_1, sorted_list_mul.
  rewrite length_list_mul, length_blocks, length_seq, combine_grid.
  split; [reflexivity |]. split; [reflexivity |]. split; [reflexivity |].
  split; [apply NoDup_grid |].
  intros x y. rewrite in_grid. lia.
Qed.

(** ** Construction *)

Lemma init_with_color (df_size df_color : Frame) :
  __init__ df_size (Some df_color) =
  if pd.shape_eqb (pd.shape df_size) (pd.shape df_color)
  then ret (mkDotPlot df_size (Some df_color)
              (length (pd.index df_size)) (length (pd.columns df_size)) None)
  else raise (ValueError "df_size and df_color should have the same dimension").
Proof.
  unfold __init__. simpl.
  now destruct (pd.shape_eqb (pd.shape df_size) (pd.shape df_color)).
Qed.

Lemma shape_eqb_eq (s t : nat * nat) : pd.shape_eqb s t = true <-> s = t.
Proof.
  destruct s as [a b], t as [c d]. unfold pd.shape_eqb. simpl.
  rewrite andb_true_iff, !Nat.eqb_eq. split.
  - intros [-> ->]. reflexivity.
  - intros Heq. injection Heq as -> ->. split; reflexivity.
Qed.

(** With a colour frame, construction succeeds exactly when the two
    shapes agree, and raises [ValueError] exactly when they differ. *)
Lemma init_with_color_succeeds (df_size df_color : Frame) :
  (exists self, __init__ df_size (Some df_color) = inr self) <->
  pd.shape df_size = pd.shape df_color.
Proof.
  rewrite init_with_color, <- shape_eqb_eq.
  destruct (pd.shape_eqb (pd.shape df_size) (pd.shape df_color)); split.
  - reflexivity.
  - intros _. eexists. reflexivity.
  - intros [self Hself]. discriminate.
  - discriminate.
Qed.

Lemma init_attributes (df_size : Frame) (df_color : option Frame) (self : DotPlot) :
  __init__ df_size df_color = inr self ->
  size_data self = df_size /\ color_data self = df_color /\
  height_item self = length (pd.index df_size) /\
  width_item self = length (pd.columns df_size) /\
  resized_size_data self = None.
Proof.
  destruct df_color as [df_color |].
  - rewrite init_with_color.
    destruct (pd.shape_eqb (pd.shape df_size) (pd.shape df_color)); [| discriminate].
    intros Heq. injection Heq as <-. repeat split.
  - discriminate.
Qed.

(** C2.  Without a colour frame the
    guard of [__init__] still evaluates [df_color.shape], so construction
    raises [AttributeError] whatever the size frame is: no object is
    built from [df_color = None]. *)
Theorem init_without_color_raises (df_size : Frame) :
  __init__ df_size None =
  raise (AttributeError "'NoneType' object has no attribute 'shape'").
Proof. reflexivity. Qed.

(** ** Figure size *)

Lemma fold_left_max (ns : list nat) (n : nat) :
  fold_left Nat.max ns n = Nat.max n (list_max ns).
Proof.
  revert n. induction ns as [| m ns IH]; intros n; simpl.
  - lia.
  - rewrite IH. lia.
Qed.

Lemma text_max_nonempty (labels : list string) :
  labels <> [] ->
  text_max labels =
  ret (Qceiling (Z.of_nat (list_max (map String.length labels)) # 15)).
Proof.
  destruct labels as [| l labels]; [congruence |]. intros _.
  unfold text_max, py.ceil_div. cbn [map]. now rewrite fold_left_max.
Qed.

Lemma max2_Qmax (a b : Q) : (py.max2 a b == Qmax a b)%Q.
Proof.
  unfold py.max2. destruct (Qle_bool b a) eqn:E.
  - apply Qle_bool_iff in E. symmetry. now apply Q.max_l.
  - symmetry. apply Q.max_r. apply Qlt_le_weak. apply Qnot_le_lt.
    intros Hle. apply Qle_bool_iff in Hle. congruence.
Qed.

(** C8. For an object built from a size frame of [H] items and [W]
    groups (with at least one item), the figure is
    [(ceil(longest item label / 15) + W) * 0.35 + 0.5] wide and
    [max(3, H * 0.3)] high. *)
Theorem get_figure_size (df_size : Frame) (df_color : option Frame) (self : DotPlot) :
  __init__ df_size df_color = inr self ->
  pd.index df_size <> [] ->
  let H := Z.of_nat (length (pd.index df_size)) in
  let W := Z.of_nat (length (pd.columns df_size)) in
  let longest := Z.of_nat (list_max (map String.length (pd.index df_size))) in
  exists fig,
    __get_figure self = inr fig /\
    (fst (figsize fig) ==
       (inject_Z (Qceiling (longest # 15)) + inject_Z W) * (35 # 100) + (1 # 2))%Q /\
    (snd (figsize fig) == Qmax 3 (inject_Z H * (3 # 10)))%Q.
Proof.
  intros Hinit Hne H W longest.
  apply init_attributes in Hinit. destruct Hinit as (Hs & _ & Hh & Hw & _).
  unfold __get_figure. rewrite Hs, Hh, Hw, (text_max_nonempty _ Hne).
  simpl. eexists. split; [reflexivity |]. simpl. split.
  - fold W longest. unfold DEFAULT_ITEM_WIDTH, DEFAULT_LEGENDS_WIDTH.
    apply Qplus_comp; [reflexivity | now unfold Qeq].
  - fold H. unfold MIN_FIGURE_HEIGHT, DEFAULT_ITEM_HEIGHT. apply max2_Qmax.
Qed.

Lemma get_figure_size_witness :
  exists fig,
    __get_figure example_plot = inr fig /\
    (fst (figsize fig) ==
       (inject_Z (Qceiling (1 # 15)) + inject_Z 2) * (35 # 100) + (1 # 2))%Q /\
    (snd (figsize fig) == Qmax 3 (inject_Z 2 * (3 # 10)))%Q.
Proof.
  apply (get_figure_size example_sizes (Some example_colors)).
  - reflexivity.
  - discriminate.
Defined.

(** ** What a call of [plot] does to the object *)

Section PlotState.

Variable legend_elements :
  mpl.PathCollection -> (Q -> Q) -> string -> list mpl.Handle * list string.

Lemma draw_dotplot_state (size_factor : Q) (cmap : string) (vmin vmax : option Q)
    (self : DotPlot) :
  exists drawn,
    __draw_dotplot size_factor cmap vmin vmax self = (inr drawn, resized size_factor self).
Proof. unfold __draw_dotplot, mbind. simpl. eexists. reflexivity. Qed.


Lemma get_figure_nonempty (self : DotPlot) :
  pd.index (size_data self) <> [] -> exists fig, __get_figure self = inr fig.
Proof.
  intros Hne. unfold __get_figure. rewrite (text_max_nonempty _ Hne).
  eexists. reflexivity.
Qed.

End PlotState.



(** ** The two-by-two scenario without colours *)

(** C4.  The size frame [[1,2],[3,4]]
    with items a, b and groups x, y and no colour frame does not make an
    object: [__init__] raises [AttributeError].  On an object that holds
    these attributes all the same, [plot] with [size_factor=10] stores
    the resized sizes [[10,20],[30,40]] and then raises as well, whatever
    the legend entries are: with the colour ['r'] the scatter has no array
    for the colour bar to take the maximum of. *)
Theorem scenario_without_color_raises :
  __init__ example_sizes None =
    raise (AttributeError "'NoneType' object has no attribute 'shape'") /\
  forall legend_elements,
    exists e,
      plot legend_elements size_factor_10 (mkDotPlot example_sizes None 2 2 None) =
      (inl e,
       mkDotPlot example_sizes None 2 2
         (Some (pd.mkDataFrame ["a"; "b"] ["x"; "y"] [[10; 20]; [30; 40]]%Q))).
Proof.
  split; [reflexivity |]. intros legend_elements.
  unfold plot, mbind at 1 2. simpl. unfold lift, mbind at 1.
  destruct (draw_dotplot_state 10%Q "Reds" (Some 0%Q) None
              (mkDotPlot example_sizes None 2 2 None)) as [drawn Hdrawn].
  rewrite Hdrawn. unfold mbind, mret.
  assert (Harr : mpl.get_array (fst drawn) = None).
  { unfold __draw_dotplot, mbind in Hdrawn. simpl in Hdrawn.
    injection Hdrawn as <-. reflexivity. }
  destruct (__draw_legend legend_elements (fst drawn) 10%Q) as [e | lg].
  - exists e. reflexivity.
  - unfold __draw_color_bar. rewrite Harr. simpl. eexists. reflexivity.
Qed.

(** What [__draw_dotplot] draws in this scenario before [plot] raises:
    four points, row by row, sized 10 to 40, all in the colour ['r']. *)
Example scenario_without_color_scatter :
  exists ax,
    fst (__draw_dotplot 10%Q "Reds" (Some 0%Q) None
           (mkDotPlot example_sizes None 2 2 None)) =
    inr (mpl.mkPathCollection [(1, 1); (2, 1); (1, 2); (2, 2)] [10; 20; 30; 40]%Q
           (mpl.ColorName "r") "Reds" (Some 0%Q, None), ax).
Proof. eexists. reflexivity. Qed.

(** ** From a long-form table to the two frames *)

(** C1.  [parse_from_tidy_data] hands
    the colour frame to the constructor as [df_size] and the size frame
    as [df_color]: for the single record (a, x, size 1, colour 2) the
    cell (a, x) of [size_data] is the colour 2 and the cell (a, x) of
    [color_data] is the size 1. *)
Theorem parse_swaps_size_and_color :
  parse_from_tidy_data one_record "size" "color" None None None =
  ret (mkDotPlot (pd.mkDataFrame ["a"] ["x"] [[2%Q]])
         (Some (pd.mkDataFrame ["a"] ["x"] [[1%Q]])) 1 1 None).
Proof. reflexivity. Qed.

(** C3.  The pivoted frame is reindexed
    with the whole item column reversed, one label per record, not with
    the distinct items: for item a recorded in the groups x and y the
    item axis is [a, a], where the reversed first-seen order is [a]. *)
Theorem parse_repeats_items :
  (exists self,
     parse_from_tidy_data one_item_two_groups "size" "color" None None None = ret self /\
     pd.index (size_data self) = ["a"; "a"] /\
     option_map pd.index (color_data self) = Some ["a"; "a"]) /\
  rev (pd.unique (map pd.item one_item_two_groups)) = ["a"].
Proof.
  split; [| reflexivity]. eexists. split; [reflexivity |]. split; reflexivity.
Qed.

(** ** The size legend *)

Lemma ceil_div_2 (n : nat) : py.ceil_div (Z.of_nat n) 2 = Z.of_nat ((n + 1) / 2).
Proof.
  unfold py.ceil_div, Qceiling, Qfloor. cbn [Qopp Qnum Qden].
  rewrite Nat2Z.inj_div, Nat2Z.inj_add. simpl (Z.of_nat 2). simpl (Z.of_nat 1).
  pose proof (Z.div_mod (- Z.of_nat n) 2 ltac:(lia)) as H1.
  pose proof (Z.mod_pos_bound (- Z.of_nat n) 2 ltac:(lia)) as H2.
  pose proof (Z.div_mod (Z.of_nat n + 1) 2 ltac:(lia)) as H3.
  pose proof (Z.mod_pos_bound (Z.of_nat n + 1) 2 ltac:(lia)) as H4.
  lia.
Qed.

Lemma item_at_nonneg {A : Type} (a : list A) (i : nat) (x : A) :
  nth_error a i = Some x -> np.item_at a (Z.of_nat i) = ret x.
Proof.
  intros Hnth. unfold np.item_at.
  assert (Hlt : i < length a) by (apply nth_error_Some; congruence).
  replace (Z.of_nat i <? 0)%Z with false by (symmetry; apply Z.ltb_ge; lia).
  replace (Z.of_nat i <? 0)%Z with false by (symmetry; apply Z.ltb_ge; lia).
  replace (Z.of_nat (length a) <=? Z.of_nat i)%Z with false
    by (symmetry; apply Z.leb_gt; lia).
  simpl. now rewrite Nat2Z.id, Hnth.
Qed.

Lemma item_at_last {A : Type} (a : list A) (x : A) :
  nth_error a (length a - 1) = Some x -> np.item_at a (-1) = ret x.
Proof.
  intros Hnth. unfold np.item_at.
  assert (Hlt : length a - 1 < length a) by (apply nth_error_Some; congruence).
  cbv zeta. change (-1 <? 0)%Z with true. cbv iota.
  replace (-1 + Z.of_nat (length a) <? 0)%Z with false
    by (symmetry; apply Z.ltb_ge; lia).
  replace (Z.of_nat (length a) <=? -1 + Z.of_nat (length a))%Z with false
    by (symmetry; apply Z.leb_gt; lia).
  cbn [orb]. replace (Z.to_nat (-1 + Z.of_nat (length a))) with (length a - 1) by lia.
  now rewrite Hnth.
Qed.

(** The integer-array index [[0, ceil(n/2), -1]] on an array of more than
    three entries picks the entries at the positions 0, (n+1)/2 and n-1,
    positions counted from zero. *)
Lemma take_three {A : Type} (a : list A) :
  3 < length a ->
  exists x m z,
    nth_error a 0 = Some x /\
    nth_error a ((length a + 1) / 2) = Some m /\
    nth_error a (length a - 1) = Some z /\
    np.take a [0%Z; middle_index a; (-1)%Z] = ret [x; m; z].
Proof.
  intros Hlen.
  assert (Hmid : (length a + 1) / 2 < length a).
  { apply Nat.Div0.div_lt_upper_bound. lia. }
  destruct (nth_error a 0) as [x |] eqn:H0;
    [| apply nth_error_None in H0; lia].
  destruct (nth_error a ((length a + 1) / 2)) as [m |] eqn:Hm;
    [| apply nth_error_None in Hm; lia].
  destruct (nth_error a (length a - 1)) as [z |] eqn:Hz;
    [| apply nth_error_None in Hz; lia].
  exists x, m, z. repeat split.
  unfold np.take, middle_index. cbn [mapM].
  rewrite (item_at_nonneg a 0 x H0 : np.item_at a 0%Z = ret x).
  rewrite ceil_div_2, (item_at_nonneg a _ m Hm), (item_at_last a z Hz).
  reflexivity.
Qed.

(** C6.  When [legend_elements] returns [n > 3] entries
    (handles and labels in step), the legend that is drawn has exactly
    three of them: the entries at the positions 0, ceil(n/2) and n-1,
    positions counted from zero; that is the first, the one after the
    ceil(n/2)-th, and the last. *)
Theorem draw_legend_keeps_three
    (legend_elements : mpl.PathCollection -> (Q -> Q) -> string ->
                       list mpl.Handle * list string)
    (sct : mpl.PathCollection) (size_factor : Q) :
  let entries := legend_elements sct (fun x => (x / size_factor)%Q) "#58000C" in
  let handles := fst entries in
  let labels := snd entries in
  let n := length handles in
  length labels = n ->
  3 < n ->
  exists h0 hm hz l0 lm lz,
    (nth_error handles 0 = Some h0 /\
     nth_error handles ((n + 1) / 2) = Some hm /\
     nth_error handles (n - 1) = Some hz) /\
    (nth_error labels 0 = Some l0 /\
     nth_error labels ((n + 1) / 2) = Some lm /\
     nth_error labels (n - 1) = Some lz) /\
    __draw_legend legend_elements sct size_factor =
      ret (mkLegend [h0; hm; hz] [l0; lm; lz] "Sizes").
Proof.
  intros entries handles labels n Hlabels Hn.
  destruct (take_three handles Hn) as (h0 & hm & hz & Hh0 & Hhm & Hhz & Hh).
  assert (Hn' : 3 < length labels) by (rewrite Hlabels; exact Hn).
  destruct (take_three labels Hn') as (l0 & lm & lz & Hl0 & Hlm & Hlz & Hl).
  rewrite Hlabels in Hlm, Hlz.
  exists h0, hm, hz, l0, lm, lz. repeat split; try assumption.
  unfold __draw_legend, reduce_legend. fold entries. fold handles. fold labels.
  replace (Nat.ltb 3 (length handles)) with true
    by (symmetry; apply Nat.ltb_lt; exact Hn).
  rewrite Hh, Hl. reflexivity.
Qed.

Lemma draw_legend_keeps_three_witness :
  exists h0 hm hz l0 lm lz,
    (nth_error four_handles 0 = Some h0 /\
     nth_error four_handles 2 = Some hm /\
     nth_error four_handles 3 = Some hz) /\
    (nth_error four_labels 0 = Some l0 /\
     nth_error four_labels 2 = Some lm /\
     nth_error four_labels 3 = Some lz) /\
    __draw_legend four_entries example_scatter 1%Q =
      ret (mkLegend [h0; hm; hz] [l0; lm; lz] "Sizes").
Proof.
  apply (draw_legend_keeps_three four_entries example_scatter 1%Q).
  - reflexivity.
  - simpl. lia.
Defined.

(** Of the four entries 1, 2, 3, 4 the legend keeps 1, 3 and 4: the middle
    one is the third entry, not the second (= ceil(4/2)-th). *)
Lemma draw_legend_middle_counterexample :
  exists lg,
    __draw_legend four_entries example_scatter 1%Q = ret lg /\
    legend_labels lg = ["1"; "3"; "4"] /\
    first_middle_last four_labels = ["1"; "2"; "4"] /\
    legend_labels lg <> first_middle_last four_labels.
Proof.
  eexists. split; [reflexivity |]. split; [reflexivity |]. split; [reflexivity |].
  discriminate.
Qed.

Lemma reduce_legend_returns (handles : list mpl.Handle) (labels : list string) :
  length labels = length handles ->
  exists lg, reduce_legend handles labels = ret lg.
Proof.
  intros Hlen. unfold reduce_legend.
  destruct (Nat.ltb 3 (length handles)) eqn:E.
  - apply Nat.ltb_lt in E.
    destruct (take_three handles E) as (h0 & hm & hz & _ & _ & _ & ->).
    rewrite <- Hlen in E.
    destruct (take_three labels E) as (l0 & lm & lz & _ & _ & _ & ->).
    eexists. reflexivity.
  - eexists. reflexivity.
Qed.

(** ** The colour bar *)

Lemma Qle_bool_false (a b : Q) : Qle_bool a b = false -> (b <= a)%Q.
Proof.
  intros E. apply Qlt_le_weak, Qnot_le_lt. intros Hle.
  apply Qle_bool_iff in Hle. congruence.
Qed.

Lemma min_seq_least (x : Q) (xs : list Q) : least (py.min_seq x xs) (x :: xs).
Proof.
  unfold py.min_seq.
  enough (H : forall xs x,
             let m := fold_left (fun m y => if Qle_bool m y then m else y) xs x in
             (m = x \/ In m xs) /\ (m <= x)%Q /\ forall y, In y xs -> (m <= y)%Q).
  { destruct (H xs x) as (Hin & Hx & Hxs). split.
    - destruct Hin as [-> | Hin]; [now left | now right].
    - intros y [<- | Hy]; [exact Hx | now apply Hxs]. }
  clear. induction xs as [| y ys IH]; intros x; simpl.
  - split; [now left |]. split; [apply Qle_refl | intros y []].
  - destruct (IH (if Qle_bool x y then x else y)) as (Hin & Hle & Hys).
    destruct (Qle_bool x y) eqn:E.
    + apply Qle_bool_iff in E. split; [| split].
      * destruct Hin as [-> | Hin]; [now left | right; now right].
      * exact Hle.
      * intros z [<- | Hz]; [eapply Qle_trans; eassumption | now apply Hys].
    + apply Qle_bool_false in E. split; [| split].
      * destruct Hin as [-> | Hin]; [right; now left | right; now right].
      * eapply Qle_trans; eassumption.
      * intros z [<- | Hz]; [exact Hle | now apply Hys].
Qed.

Lemma max_seq_greatest (x : Q) (xs : list Q) : greatest (py.max_seq x xs) (x :: xs).
Proof.
  unfold py.max_seq.
  enough (H : forall xs x,
             let m := fold_left (fun m y => if Qle_bool y m then m else y) xs x in
             (m = x \/ In m xs) /\ (x <= m)%Q /\ forall y, In y xs -> (y <= m)%Q).
  { destruct (H xs x) as (Hin & Hx & Hxs). split.
    - destruct Hin as [-> | Hin]; [now left | now right].
    - intros y [<- | Hy]; [exact Hx | now apply Hxs]. }
  clear. induction xs as [| y ys IH]; intros x; simpl.
  - split; [now left |]. split; [apply Qle_refl | intros y []].
  - destruct (IH (if Qle_bool y x then x else y)) as (Hin & Hle & Hys).
    destruct (Qle_bool y x) eqn:E.
    + apply Qle_bool_iff in E. split; [| split].
      * destruct Hin as [-> | Hin]; [now left | right; now right].
      * exact Hle.
      * intros z [<- | Hz]; [eapply Qle_trans; eassumption | now apply Hys].
    + apply Qle_bool_false in E. split; [| split].
      * destruct Hin as [-> | Hin]; [right; now left | right; now right].
      * eapply Qle_trans; eassumption.
      * intros z [<- | Hz]; [exact Hle | now apply Hys].
Qed.

Lemma draw_dotplot_array (size_factor : Q) (cmap : string) (vmin vmax : option Q)
    (self : DotPlot) :
  exists drawn,
    __draw_dotplot size_factor cmap vmin vmax self = (inr drawn, resized size_factor self) /\
    mpl.get_array (fst drawn) = option_map pd.flatten (color_data self).
Proof.
  unfold __draw_dotplot, mbind. simpl. eexists. split; [reflexivity |].
  simpl. now destruct (color_data self).
Qed.

(** C5.  On an object with an item and a non-empty colour
    frame, [plot] completes and labels the colour bar with the two bounds
    it was called with, [vmin] taking the default 0 and [vmax] the default
    [None] of the signature when the caller leaves them out.  A bound that
    is a number is shown as it is; a bound that is [None] is inferred:
    the floor of the least colour for [vmin], the ceiling of the greatest
    colour for [vmax].  So the upper label is inferred when [vmax] is left
    out, and the lower label is 0 when [vmin] is left out. *)
Theorem colorbar_bounds
    (legend_elements : mpl.PathCollection -> (Q -> Q) -> string ->
                       list mpl.Handle * list string)
    (self : DotPlot) (args : PlotArgs) (colors : Frame) :
  (forall sct func c,
     length (snd (legend_elements sct func c)) = length (fst (legend_elements sct func c))) ->
  pd.index (size_data self) <> [] ->
  color_data self = Some colors ->
  pd.flatten colors <> [] ->
  exists r lo hi,
    fst (plot legend_elements args self) = inr r /\
    least lo (pd.flatten colors) /\
    greatest hi (pd.flatten colors) /\
    cbar_yticklabels (color_bar r) =
      [bound_label (default (Some 0%Q) (arg_vmin args)) (Qfloor lo);
       bound_label (default None (arg_vmax args)) (Qceiling hi)].
Proof.
  intros Hentries Hitems Hcolor Hcells.
  destruct (pd.flatten colors) as [| c cs] eqn:Hflat; [congruence |].
  destruct (get_figure_nonempty self Hitems) as [fig Hfig].
  set (size_factor := default 15%Q (arg_size_factor args)).
  set (vmin := default (Some 0%Q) (arg_vmin args)).
  set (vmax := default None (arg_vmax args)).
  destruct (draw_dotplot_array size_factor (default "Reds" (arg_cmap args)) vmin vmax self)
    as [drawn [Hdrawn Harr]].
  rewrite Hcolor in Harr. simpl in Harr. rewrite Hflat in Harr.
  destruct (reduce_legend_returns _ _
              (Hentries (fst drawn) (fun x => (x / size_factor)%Q) "#58000C"))
    as [lg Hlg].
  assert (Hplot : exists cb,
            fst (plot legend_elements args self) =
              inr (mkRendering fig (fst drawn) (snd drawn) lg cb
                     (truthy (default None (arg_path args)))) /\
            cbar_yticklabels cb =
              [bound_label vmin (Qfloor (py.min_seq c cs));
               bound_label vmax (Qceiling (py.max_seq c cs))]).
  { unfold plot, mbind at 1 2. simpl. unfold lift. rewrite Hfig.
    unfold mbind at 1. fold size_factor vmin vmax. rewrite Hdrawn.
    unfold mbind at 1. unfold __draw_legend. rewrite Hlg.
    unfold mbind, mret, __draw_color_bar. rewrite Harr.
    destruct vmax, vmin; simpl; eexists; split; reflexivity. }
  destruct Hplot as [cb [Hplot Hcb]].
  eexists. exists (py.min_seq c cs), (py.max_seq c cs).
  split; [exact Hplot |].
  split; [apply min_seq_least |]. split; [apply max_seq_greatest |]. exact Hcb.
Qed.

Lemma colorbar_bounds_witness :
  exists r lo hi,
    fst (plot four_entries no_args example_plot) = inr r /\
    least lo (pd.flatten example_colors) /\
    greatest hi (pd.flatten example_colors) /\
    cbar_yticklabels (color_bar r) =
      [bound_label (Some 0%Q) (Qfloor lo); bound_label None (Qceiling hi)].
Proof.
  apply (colorbar_bounds four_entries example_plot no_args example_colors).
  - reflexivity.
  - discriminate.
  - reflexivity.
  - discriminate.
Defined.

(** Called without [vmin] on colours whose least value is 5/2, [plot]
    labels the lower end of the colour bar 0, not floor(5/2) = 2. *)
Lemma colorbar_default_vmin_counterexample :
  arg_vmin no_args = None /\
  least (5 # 2)%Q (pd.flatten example_colors) /\
  exists r,
    fst (plot four_entries no_args example_plot) = inr r /\
    cbar_yticklabels (color_bar r) = [0%Q; 9%Q] /\
    ~ (0 == inject_Z (Qfloor (5 # 2)))%Q.
Proof.
  split; [reflexivity |]. split.
  - split; [now left |].
    intros y Hy. simpl in Hy.
    destruct Hy as [<- | [<- | [<- | [<- | []]]]]; unfold Qle; simpl; lia.
  - eexists. split; [reflexivity |]. split; [reflexivity |].
    unfold Qeq. simpl. lia.
Qed.

(** ** Column labels *)

Lemma split_nonempty (sep : ascii) (s : string) : py.split sep s <> [].
Proof.
  destruct s as [| c s]; simpl; [discriminate |].
  destruct (Ascii.eqb c sep); [discriminate |].
  destruct (py.split sep s); discriminate.
Qed.

Lemma join_cons (sep x : string) (l : list string) :
  l <> [] -> py.join sep (x :: l) = (x ++ sep ++ py.join sep l)%string.
Proof. destruct l; [congruence | reflexivity]. Qed.

(** Joining the pieces of a split with the separator gives the string back. *)
Lemma join_split (s : string) : py.join "_" (py.split "_" s) = s.
Proof.
  induction s as [| c s IH]; [reflexivity |]. simpl py.split.
  destruct (Ascii.eqb c "_") eqn:E.
  - apply Ascii.eqb_eq in E. subst c.
    rewrite join_cons by apply split_nonempty. now rewrite IH.
  - pose proof (split_nonempty "_" s) as Hne.
    destruct (py.split "_" s) as [| p ps]; [congruence |].
    destruct ps as [| q ps].
    + simpl in *. now rewrite IH.
    + rewrite <- IH. rewrite !join_cons by discriminate. reflexivity.
Qed.

(** The lambda [lambda x: '_'.join(x.split('_')[1:])] drops the string
    up to and including its first underscore. *)
Lemma strip_key_after_underscore (s : string) : strip_key s = after_underscore s.
Proof.
  unfold strip_key. induction s as [| c s IH]; [reflexivity |]. simpl.
  destruct (Ascii.eqb c "_").
  - simpl. apply join_split.
  - pose proof (split_nonempty "_" s) as Hne.
    destruct (py.split "_" s) as [| p ps]; [congruence |]. exact IH.
Qed.

Lemma flatten_label_app (key g : string) :
  flatten_label (key, g) = (key ++ "_" ++ g)%string.
Proof. reflexivity. Qed.

Lemma after_underscore_app (key rest : string) :
  after_underscore (key ++ "_" ++ rest) =
  if has_underscore key then (after_underscore key ++ "_" ++ rest)%string else rest.
Proof.
  induction key as [| c key IH]; [reflexivity |]. simpl.
  destruct (Ascii.eqb c "_"); [reflexivity | exact IH].
Qed.

Lemma length_append (s t : string) :
  String.length (s ++ t) = String.length s + String.length t.
Proof. induction s as [| c s IH]; simpl; [reflexivity | now rewrite IH]. Qed.

(** Label by label: flattening [(key, g)] and stripping the key gives
    [g] back exactly when [key] holds no underscore; with an
    underscore in [key] the label that comes back is the rest of [key]
    after its first underscore, an underscore, and [g]. *)
Lemma strip_key_flatten_label (key g : string) :
  strip_key (flatten_label (key, g)) =
  if has_underscore key then (after_underscore key ++ "_" ++ g)%string else g.
Proof.
  rewrite strip_key_after_underscore, flatten_label_app. apply after_underscore_app.
Qed.

Lemma strip_key_flatten_label_iff (key g : string) :
  strip_key (flatten_label (key, g)) = g <-> has_underscore key = false.
Proof.
  rewrite strip_key_flatten_label. destruct (has_underscore key); split; try congruence.
  intros Heq. apply (f_equal String.length) in Heq.
  rewrite !length_append in Heq. simpl in Heq. lia.
Qed.

(** *** The columns of the two frames that [parse_from_tidy_data] builds *)

Lemma select_map {A : Type} (f : A -> bool) (l : list A) :
  pd.select (map f l) l = filter f l.
Proof.
  induction l as [| x l IH]; simpl; [reflexivity |].
  destruct (f x); now rewrite IH.
Qed.

Lemma prefix_append (p s : string) : String.prefix p (p ++ s) = true.
Proof.
  induction p as [| c p IH]; simpl; [now destruct s |].
  destruct (ascii_dec c c); [exact IH | congruence].
Qed.

Lemma insert_label_permutation (s : string) (l : list string) :
  Permutation (s :: l) (pd.insert_label s l).
Proof.
  induction l as [| x l IH]; simpl; [reflexivity |].
  destruct (String.leb s x); [reflexivity |].
  transitivity (x :: s :: l); [apply perm_swap | now apply perm_skip].
Qed.

Lemma sorted_unique_permutation (l : list string) :
  Permutation (pd.unique l) (pd.sorted_unique l).
Proof.
  unfold pd.sorted_unique, pd.sort_labels.
  induction (pd.unique l) as [| x u IH]; simpl; [reflexivity |].
  transitivity (x :: fold_right pd.insert_label [] u);
    [now apply perm_skip | apply insert_label_permutation].
Qed.

Lemma sorted_unique_nonempty (l : list string) : l <> [] -> pd.sorted_unique l <> [].
Proof.
  destruct l as [| x l]; [congruence |]. intros _ Hnil.
  pose proof (sorted_unique_permutation (x :: l)) as HP. rewrite Hnil in HP.
  apply Permutation_sym, Permutation_nil in HP. discriminate.
Qed.

Lemma loc_rows_columns {C V : Type} (labels : list string) (df df' : pd.DataFrame C V) :
  pd.loc_rows labels df = inr df' -> pd.columns df' = pd.columns df.
Proof.
  unfold pd.loc_rows. destruct (mapM _ labels); simpl; [discriminate |].
  intros Heq. injection Heq as <-. reflexivity.
Qed.

Lemma map_series_labels (func : option (Q -> Q)) (get : pd.TidyRow -> Q)
    (set : pd.TidyRow -> Q -> pd.TidyRow) (rows : list pd.TidyRow) :
  (forall r v, pd.item (set r v) = pd.item r /\ pd.group (set r v) = pd.group r) ->
  map pd.item (map_series func get set rows) = map pd.item rows /\
  map pd.group (map_series func get set rows) = map pd.group rows.
Proof.
  intros Hset. destruct func as [f |]; simpl; [| split; reflexivity].
  rewrite !map_map. split; apply map_ext; intros r; apply Hset.
Qed.

Lemma parse_columns (rows : list pd.TidyRow) (sizes_key color_key : string)
    (selected_item : option (list string)) (sizes_func color_func : option (Q -> Q))
    (self : DotPlot) :
  parse_from_tidy_data rows sizes_key color_key selected_item sizes_func color_func
    = inr self ->
  let cols := flat_columns sizes_key color_key (pd.sorted_unique (map pd.group rows)) in
  pd.columns (size_data self) = stripped_columns color_key cols /\
  option_map pd.columns (color_data self) = Some (stripped_columns sizes_key cols).
Proof.
  unfold parse_from_tidy_data, pd.pivot.
  set (rows1 := map_series sizes_func pd.sizes set_sizes rows).
  set (rows2 := map_series color_func pd.color set_color rows1).
  assert (Hgroups : map pd.group rows2 = map pd.group rows).
  { subst rows2 rows1.
    rewrite (proj2 (map_series_labels color_func pd.color set_color _
                      (fun r v => conj eq_refl eq_refl))).
    apply (proj2 (map_series_labels sizes_func pd.sizes set_sizes _
                    (fun r v => conj eq_refl eq_refl))). }
  rewrite Hgroups.
  destruct (pd.has_duplicate_entries rows2); simpl; [discriminate |].
  match goal with
  | |- context [pd.loc_rows ?ls ?df] =>
      destruct (pd.loc_rows ls df) as [e | df1] eqn:Hloc1
  end; simpl; [discriminate |].
  apply loc_rows_columns in Hloc1. simpl in Hloc1.
  assert (Hsel : forall df2,
             match selected_item with
             | Some labels => pd.loc_rows labels df1
             | None => ret df1
             end = inr df2 -> pd.columns df2 = pd.columns df1).
  { intros df2. destruct selected_item as [labels |].
    - apply loc_rows_columns.
    - intros Heq. injection Heq as <-. reflexivity. }
  destruct (match selected_item with
            | Some labels => pd.loc_rows labels df1
            | None => ret df1
            end) as [e | df2]; simpl; [discriminate |].
  specialize (Hsel df2 eq_refl). rewrite Hsel, Hloc1.
  rewrite init_with_color.
  destruct (pd.shape_eqb _ _); [| discriminate].
  intros Heq. injection Heq as <-. simpl.
  rewrite ?Hsel, ?Hloc1. unfold pd.str_startswith. rewrite !select_map.
  split; reflexivity.
Qed.

Lemma startswith_flatten_label (key g : string) :
  py.startswith (flatten_label (key, g)) key = true.
Proof. rewrite flatten_label_app. apply prefix_append. Qed.

Lemma filter_own_key (key : string) (groups : list string) :
  filter (fun c => py.startswith c key) (map flatten_label (map (pair key) groups)) =
  map flatten_label (map (pair key) groups).
Proof.
  induction groups as [| g groups IH]; [reflexivity |]. cbn [map filter].
  now rewrite startswith_flatten_label, IH.
Qed.

(** C10.  A column label [key_g] gives the group [g] back exactly when
    [key] holds no underscore.  Hence, for a table with at least one
    record that [parse_from_tidy_data] turns into an object: the column
    labels of the frame made from the colour key are the group labels of
    the table only if [color_key] holds no underscore, and the column
    labels of the frame made from the size key are the group labels only
    if [sizes_key] holds no underscore. *)
Theorem group_labels_need_plain_keys :
  (forall key g, strip_key (flatten_label (key, g)) = g <-> has_underscore key = false) /\
  (forall (rows : list pd.TidyRow) (sizes_key color_key : string)
          (selected_item : option (list string)) (sizes_func color_func : option (Q -> Q))
          (self : DotPlot),
     rows <> [] ->
     parse_from_tidy_data rows sizes_key color_key selected_item sizes_func color_func
       = inr self ->
     let groups := pd.sorted_unique (map pd.group rows) in
     (pd.columns (size_data self) = groups -> has_underscore color_key = false) /\
     (option_map pd.columns (color_data self) = Some groups ->
      has_underscore sizes_key = false)).
Proof.
  split; [exact strip_key_flatten_label_iff |].
  intros rows sizes_key color_key selected_item sizes_func color_func self Hrows Hparse groups.
  apply parse_columns in Hparse. cbv zeta in Hparse. fold groups in Hparse.
  destruct Hparse as [Hsize Hcolor].
  assert (Hgroups : groups <> []).
  { apply sorted_unique_nonempty. destruct rows; [congruence | discriminate]. }
  destruct groups as [| g groups']; [congruence |]. clear Hgroups.
  unfold stripped_columns, flat_columns in Hsize, Hcolor.
  rewrite map_app, filter_app, map_app in Hsize, Hcolor.
  split.
  - rewrite Hsize, filter_own_key. simpl. intros Heq. injection Heq as Hhead _.
    now apply strip_key_flatten_label_iff in Hhead.
  - rewrite Hcolor, filter_own_key.
    remember (filter (fun c => py.startswith c sizes_key)
                (map flatten_label (map (pair color_key) (g :: groups')))) as extra.
    intros Heq.
    assert (Heq' : map strip_key extra ++
                   map strip_key (map flatten_label (map (pair sizes_key) (g :: groups')))
                   = g :: groups') by congruence.
    assert (Hextra : extra = []).
    { apply (f_equal (@length string)) in Heq'.
      rewrite length_app, !length_map in Heq'.
      apply length_zero_iff_nil. simpl in Heq'. lia. }
    rewrite Hextra in Heq'. simpl in Heq'. injection Heq' as Hhead _.
    now apply strip_key_flatten_label_iff in Hhead.
Qed.

Lemma group_labels_need_plain_keys_witness :
  has_underscore "color" = false /\ has_underscore "size" = false.
Proof.
  destruct (proj2 group_labels_need_plain_keys one_record "size" "color" None None None
              (mkDotPlot (pd.mkDataFrame ["a"] ["x"] [[2%Q]])
                 (Some (pd.mkDataFrame ["a"] ["x"] [[1%Q]])) 1 1 None)
              ltac:(discriminate) eq_refl) as [Hcolor Hsizes].
  split; [apply Hcolor | apply Hsizes]; reflexivity.
Defined.

(** With the size key [gene_ratio] the columns of the frame made from the
    sizes are labelled [ratio_x], not [x]. *)
Example underscore_in_sizes_key :
  option_map (fun self => option_map pd.columns (color_data self))
    (match parse_from_tidy_data one_record "gene_ratio" "p" None None None with
     | inl _ => None
     | inr self => Some self
     end) = Some (Some ["ratio_x"]).
Proof. reflexivity. Qed.

(** *** The frames that [parse_from_tidy_data] builds *)

Lemma in_unique (l : list string) (x : string) : In x (pd.unique l) <-> In x l.
Proof.
  induction l as [| a l IH]; simpl; [reflexivity |].
  rewrite filter_In, IH. split.
  - intros [-> | [Hin _]]; [now left | now right].
  - intros [-> | Hin]; [now left |].
    destruct (String.eqb a x) eqn:E.
    + apply String.eqb_eq in E. now left.
    + right. split; [assumption | reflexivity].
Qed.

Lemma NoDup_unique (l : list string) : NoDup (pd.unique l).
Proof.
  induction l as [| a l IH]; simpl; constructor.
  - rewrite filter_In. intros [_ Hneq]. now rewrite String.eqb_refl in Hneq.
  - now apply NoDup_filter.
Qed.

Lemma in_sorted_unique (l : list string) (x : string) :
  In x (pd.sorted_unique l) <-> In x l.
Proof.
  split; intros Hin.
  - apply in_unique.
    eapply Permutation_in; [apply Permutation_sym, sorted_unique_permutation | exact Hin].
  - eapply Permutation_in; [apply sorted_unique_permutation | now apply in_unique].
Qed.

Lemma NoDup_sorted_unique (l : list string) : NoDup (pd.sorted_unique l).
Proof.
  eapply Permutation_NoDup; [apply sorted_unique_permutation | apply NoDup_unique].
Qed.

(** On a frame whose labels are all different, the rows labelled [l] are
    the one row of [l]. *)
Lemma rows_labelled_map {V : Type} (rowf : string -> list V) (ix : list string)
    (l : string) :
  NoDup ix -> In l ix -> pd.rows_labelled l ix (map rowf ix) = [rowf l].
Proof.
  unfold pd.rows_labelled. induction ix as [| a ix IH]; intros Hnd Hin; [destruct Hin |].
  inversion Hnd as [| a' ix' Hnotin Hnd']; subst. simpl.
  destruct (String.eqb a l) eqn:E.
  - apply String.eqb_eq in E. subst a. simpl. f_equal.
    clear IH Hin Hnd Hnd'. induction ix as [| b ix IH]; [reflexivity |]. simpl.
    destruct (String.eqb b l) eqn:E.
    + apply String.eqb_eq in E. subst b. exfalso. apply Hnotin. now left.
    + apply IH. intros Hin. apply Hnotin. now right.
  - apply IH; [assumption |]. destruct Hin as [-> | Hin]; [| assumption].
    now rewrite String.eqb_refl in E.
Qed.

(** Reindexing such a frame with labels that are all on it gives one row
    per requested label: a label requested twice is on two rows. *)
Lemma loc_rows_map {C V : Type} (rowf : string -> list V) (ix labels : list string)
    (cols : list C) :
  NoDup ix -> (forall l, In l labels -> In l ix) ->
  pd.loc_rows labels (pd.mkDataFrame ix cols (map rowf ix)) =
  ret (pd.mkDataFrame labels cols (map rowf labels)).
Proof.
  intros Hnd Hin. unfold pd.loc_rows. cbn [pd.index pd.values pd.columns].
  assert (HmapM : mapM (fun l =>
                          match pd.rows_labelled l ix (map rowf ix) with
                          | [] => raise (KeyError l)
                          | rs => ret (map (pair l) rs)
                          end) labels
                  = ret (map (fun l => [(l, rowf l)]) labels)).
  { induction labels as [| l labels IH]; [reflexivity |]. cbn [mapM].
    rewrite (rows_labelled_map rowf ix l Hnd) by (apply Hin; now left).
    rewrite IH by (intros l' Hl'; apply Hin; now right). reflexivity. }
  rewrite HmapM. clear. simpl. f_equal. f_equal.
  - induction labels as [| l labels IH]; simpl; [reflexivity | now rewrite IH].
  - induction labels as [| l labels IH]; simpl; [reflexivity | now rewrite IH].
Qed.

Lemma has_duplicate_entries_map (f : pd.TidyRow -> pd.TidyRow) (rows : list pd.TidyRow) :
  (forall r, pd.item (f r) = pd.item r /\ pd.group (f r) = pd.group r) ->
  pd.has_duplicate_entries (map f rows) = pd.has_duplicate_entries rows.
Proof.
  intros Hf. induction rows as [| r rows IH]; [reflexivity |]. simpl.
  rewrite IH. f_equal. clear IH.
  induction rows as [| r' rows IH]; [reflexivity |]. simpl. rewrite IH. f_equal.
  unfold pd.same_entry.
  destruct (Hf r) as [-> ->]. destruct (Hf r') as [-> ->]. reflexivity.
Qed.

Lemma has_duplicate_entries_map_series (func : option (Q -> Q)) (get : pd.TidyRow -> Q)
    (set : pd.TidyRow -> Q -> pd.TidyRow) (rows : list pd.TidyRow) :
  (forall r v, pd.item (set r v) = pd.item r /\ pd.group (set r v) = pd.group r) ->
  pd.has_duplicate_entries (map_series func get set rows) = pd.has_duplicate_entries rows.
Proof.
  intros Hset. destruct func as [f |]; [| reflexivity].
  apply has_duplicate_entries_map. intros r. apply Hset.
Qed.

Lemma map_constant {A B : Type} (f : A -> B) (b : B) (l : list A) :
  (forall x, In x l -> f x = b) -> map f l = repeat b (length l).
Proof.
  induction l as [| x l IH]; intros Hf; [reflexivity |]. simpl.
  rewrite (Hf x) by now left. f_equal. apply IH. intros y Hy. apply Hf. now right.
Qed.

Lemma select_first {A : Type} (xs ys : list A) (n m : nat) :
  length xs = n ->
  pd.select (repeat true n ++ repeat false m) (xs ++ ys) = xs.
Proof.
  intros <-. induction xs as [| x xs IH]; simpl.
  - revert ys. induction m as [| m IHm]; intros [| y ys]; simpl; auto.
  - now rewrite IH.
Qed.

Lemma select_second {A : Type} (xs ys : list A) (n m : nat) :
  length xs = n -> length ys = m ->
  pd.select (repeat false n ++ repeat true m) (xs ++ ys) = ys.
Proof.
  intros <- <-. induction xs as [| x xs IH]; simpl; [| exact IH].
  induction ys as [| y ys IHy]; simpl; [reflexivity | now rewrite IHy].
Qed.

(** What [parse_from_tidy_data] returns for a table with one record per
    (item, group) pair, when neither key is the beginning of a flattened
    column label of the other key: one row per record of the table, last
    record first; the frame of the colours as [size_data] and the frame
    of the sizes as [color_data]; a cell holds the value of the record of
    its item and group, and 0 where the table has no such record. *)
Lemma parse_frames (rows : list pd.TidyRow) (sizes_key color_key : string)
    (sizes_func color_func : option (Q -> Q)) :
  let groups := pd.sorted_unique (map pd.group rows) in
  let items := rev (map pd.item rows) in
  let mapped :=
    map_series color_func pd.color set_color
      (map_series sizes_func pd.sizes set_sizes rows) in
  let frame key field :=
    pd.mkDataFrame items
      (map (fun g => strip_key (flatten_label (key, g))) groups)
      (map (fun i => map (fun g => filled (pd.pivot_cell mapped field i g)) groups) items) in
  pd.has_duplicate_entries rows = false ->
  (forall g, In g groups -> py.startswith (flatten_label (sizes_key, g)) color_key = false) ->
  (forall g, In g groups -> py.startswith (flatten_label (color_key, g)) sizes_key = false) ->
  parse_from_tidy_data rows sizes_key color_key None sizes_func color_func =
  ret (mkDotPlot (frame color_key pd.color) (Some (frame sizes_key pd.sizes))
         (length items) (length groups) None).
Proof.
  intros groups items mapped frame Hdup Hsk Hck.
  unfold parse_from_tidy_data, pd.pivot. fold mapped.
  assert (Hlabels : map pd.item mapped = map pd.item rows /\
                    map pd.group mapped = map pd.group rows).
  { subst mapped. split.
    - rewrite (proj1 (map_series_labels color_func pd.color set_color _
                        (fun r v => conj eq_refl eq_refl))).
      apply (proj1 (map_series_labels sizes_func pd.sizes set_sizes _
                      (fun r v => conj eq_refl eq_refl))).
    - rewrite (proj2 (map_series_labels color_func pd.color set_color _
                        (fun r v => conj eq_refl eq_refl))).
      apply (proj2 (map_series_labels sizes_func pd.sizes set_sizes _
                      (fun r v => conj eq_refl eq_refl))). }
  destruct Hlabels as [Hitems Hgroups].
  assert (Hdup' : pd.has_duplicate_entries mapped = false).
  { subst mapped.
    rewrite !has_duplicate_entries_map_series by (intros; split; reflexivity).
    exact Hdup. }
  rewrite Hdup', Hitems, Hgroups. fold groups. fold items.
  cbn [bind ret].
  rewrite (loc_rows_map
             (fun i => map (pd.pivot_cell mapped pd.color i) groups ++
                       map (pd.pivot_cell mapped pd.sizes i) groups)).
  2: apply NoDup_sorted_unique.
  2: { intros l Hl. apply in_sorted_unique. subst items. now apply in_rev. }
  cbn [bind ret]. rewrite init_with_color.
  unfold pd.fillna, pd.applymap, pd.map_columns, pd.loc_cols, pd.str_startswith, pd.shape.
  cbn [pd.index pd.columns pd.values fst snd].
  rewrite !map_app.
  rewrite (map_constant (fun c => py.startswith c color_key) true
             (map flatten_label (map (pair color_key) groups))).
  2: { intros c Hc. apply in_map_iff in Hc. destruct Hc as [[k g] [<- Hc]].
       apply in_map_iff in Hc. destruct Hc as [g' [Heq _]]. injection Heq as <- <-.
       apply startswith_flatten_label. }
  rewrite (map_constant (fun c => py.startswith c color_key) false
             (map flatten_label (map (pair sizes_key) groups))).
  2: { intros c Hc. apply in_map_iff in Hc. destruct Hc as [[k g] [<- Hc]].
       apply in_map_iff in Hc. destruct Hc as [g' [Heq Hg']]. injection Heq as <- <-.
       now apply Hsk. }
  rewrite (map_constant (fun c => py.startswith c sizes_key) false
             (map flatten_label (map (pair color_key) groups))).
  2: { intros c Hc. apply in_map_iff in Hc. destruct Hc as [[k g] [<- Hc]].
       apply in_map_iff in Hc. destruct Hc as [g' [Heq Hg']]. injection Heq as <- <-.
       now apply Hck. }
  rewrite (map_constant (fun c => py.startswith c sizes_key) true
             (map flatten_label (map (pair sizes_key) groups))).
  2: { intros c Hc. apply in_map_iff in Hc. destruct Hc as [[k g] [<- Hc]].
       apply in_map_iff in Hc. destruct Hc as [g' [Heq _]]. injection Heq as <- <-.
       apply startswith_flatten_label. }
  rewrite !length_map.
  rewrite select_first by now rewrite !length_map.
  rewrite select_second by now rewrite !length_map.
  rewrite !length_map. unfold pd.shape_eqb. cbn [fst snd].
  rewrite !Nat.eqb_refl. cbn [andb].
  unfold frame. f_equal. f_equal.
  - f_equal; [now rewrite !map_map |].
    rewrite !map_map. apply map_ext. intros i. rewrite map_app.
    rewrite select_first by now rewrite !length_map.
    now rewrite map_map.
  - f_equal. f_equal; [now rewrite !map_map |].
    rewrite !map_map. apply map_ext. intros i. rewrite map_app.
    rewrite select_second by now rewrite !length_map.
    now rewrite map_map.
Qed.

(** Without [selected_item], the item axis of both frames is the item
    column of the table reversed, one label per record: the item of the
    first record is on the last row, and an item with several records is
    on as many rows. *)
Lemma parse_item_axis (rows : list pd.TidyRow) (sizes_key color_key : string)
    (sizes_func color_func : option (Q -> Q)) (self : DotPlot) :
  parse_from_tidy_data rows sizes_key color_key None sizes_func color_func = inr self ->
  pd.index (size_data self) = rev (map pd.item rows) /\
  option_map pd.index (color_data self) = Some (rev (map pd.item rows)).
Proof.
  unfold parse_from_tidy_data, pd.pivot.
  set (mapped := map_series color_func pd.color set_color
                   (map_series sizes_func pd.sizes set_sizes rows)).
  assert (Hitems : map pd.item mapped = map pd.item rows).
  { subst mapped.
    rewrite (proj1 (map_series_labels color_func pd.color set_color _
                      (fun r v => conj eq_refl eq_refl))).
    apply (proj1 (map_series_labels sizes_func pd.sizes set_sizes _
                    (fun r v => conj eq_refl eq_refl))). }
  rewrite Hitems.
  destruct (pd.has_duplicate_entries mapped); [discriminate |]. cbn [bind ret].
  rewrite (loc_rows_map
             (fun i => map (pd.pivot_cell mapped pd.color i)
                         (pd.sorted_unique (map pd.group mapped)) ++
                       map (pd.pivot_cell mapped pd.sizes i)
                         (pd.sorted_unique (map pd.group mapped)))).
  2: apply NoDup_sorted_unique.
  2: { intros l Hl. apply in_sorted_unique. now apply in_rev. }
  cbn [bind ret]. rewrite init_with_color.
  destruct (pd.shape_eqb _ _); [| discriminate].
  intros Heq. injection Heq as <-. split; reflexivity.
Qed.

(** In a table with one record per (item, group) pair, the pivoted cell
    of a record's item and group holds that record's value, and the cell
    of a pair that is on no record is missing. *)
Lemma pivot_cell_present (rows : list pd.TidyRow) (field : pd.TidyRow -> Q)
    (r : pd.TidyRow) :
  pd.has_duplicate_entries rows = false -> In r rows ->
  pd.pivot_cell rows field (pd.item r) (pd.group r) = Some (field r).
Proof.
  unfold pd.pivot_cell. induction rows as [| a rows IH]; intros Hdup Hin; [destruct Hin |].
  simpl in Hdup. apply orb_false_iff in Hdup. destruct Hdup as [Hhead Hdup].
  simpl. destruct Hin as [-> | Hin].
  - now rewrite !String.eqb_refl.
  - destruct (String.eqb (pd.item a) (pd.item r) && String.eqb (pd.group a) (pd.group r))
      eqn:E.
    + exfalso. assert (Hex : existsb (pd.same_entry a) rows = true).
      { apply existsb_exists. exists r. split; [assumption | exact E]. }
      congruence.
    + now apply IH.
Qed.

Lemma pivot_cell_absent (rows : list pd.TidyRow) (field : pd.TidyRow -> Q)
    (i g : string) :
  (forall r, In r rows -> ~ (pd.item r = i /\ pd.group r = g)) ->
  pd.pivot_cell rows field i g = None.
Proof.
  unfold pd.pivot_cell. intros Habsent.
  destruct (find _ rows) as [r |] eqn:E; [| reflexivity].
  apply find_some in E. destruct E as [Hin Hmatch].
  apply andb_true_iff in Hmatch. destruct Hmatch as [Hi Hg].
  apply String.eqb_eq in Hi, Hg. exfalso. apply (Habsent r Hin). now split.
Qed.

(** * Further properties of the class *)

(** ** Construction with a colour frame *)

(** X1. With a colour frame, [__init__] builds the object (the two frames
    as given, the shape of the size frame stored, no resized sizes yet)
    when the two shapes are equal, and raises [ValueError] when they
    differ. *)
Theorem init_checks_shape (df_size df_color : Frame) :
  (pd.shape df_size = pd.shape df_color ->
   __init__ df_size (Some df_color) =
   ret (mkDotPlot df_size (Some df_color)
          (length (pd.index df_size)) (length (pd.columns df_size)) None)) /\
  (pd.shape df_size <> pd.shape df_color ->
   __init__ df_size (Some df_color) =
   raise (ValueError "df_size and df_color should have the same dimension")).
Proof.
  rewrite init_with_color.
  destruct (pd.shape_eqb (pd.shape df_size) (pd.shape df_color)) eqn:E; split.
  - reflexivity.
  - intros Hne. apply shape_eqb_eq in E. congruence.
  - intros Heq. apply shape_eqb_eq in Heq. congruence.
  - reflexivity.
Qed.

Lemma init_checks_shape_witness :
  __init__ example_sizes (Some example_colors) = ret example_plot /\
  __init__ example_sizes (Some (pd.mkDataFrame ["a"] ["x"; "y"] [[1; 2]]%Q)) =
  raise (ValueError "df_size and df_color should have the same dimension").
Proof.
  split.
  - apply (proj1 (init_checks_shape example_sizes example_colors)). reflexivity.
  - apply (proj2 (init_checks_shape example_sizes
                    (pd.mkDataFrame ["a"] ["x"; "y"] [[1; 2]]%Q))).
    discriminate.
Defined.

(** ** Tables with a pair recorded twice *)

Lemma existsb_same_entry (r : pd.TidyRow) (rows : list pd.TidyRow) :
  existsb (pd.same_entry r) rows = true <-> In (entry r) (map entry rows).
Proof.
  rewrite existsb_exists, in_map_iff. unfold pd.same_entry, entry.
  split; intros [r' H]; exists r'.
  - destruct H as [Hin H]. apply andb_true_iff in H. destruct H as [Hi Hg].
    apply String.eqb_eq in Hi, Hg. split; [congruence | assumption].
  - destruct H as [Heq Hin]. injection Heq as Hi Hg. split; [assumption |].
    rewrite Hi, Hg, !String.eqb_refl. reflexivity.
Qed.

(** [pivot] has no duplicate to complain about exactly when no two
    records are about the same (item, group) pair. *)
Lemma has_duplicate_entries_NoDup (rows : list pd.TidyRow) :
  pd.has_duplicate_entries rows = false <-> NoDup (map entry rows).
Proof.
  induction rows as [| r rows IH]; simpl.
  - split; [constructor | reflexivity].
  - rewrite orb_false_iff, IH. split.
    + intros [Hhead Htail]. constructor; [| assumption].
      intros Hin. apply existsb_same_entry in Hin. congruence.
    + intros Hnd. inversion Hnd as [| e es Hnotin Hnd']; subst. split; [| assumption].
      destruct (existsb (pd.same_entry r) rows) eqn:E; [| reflexivity].
      apply existsb_same_entry in E. contradiction.
Qed.

Lemma map_series_entries (sizes_func color_func : option (Q -> Q))
    (rows : list pd.TidyRow) :
  map_series color_func pd.color set_color
    (map_series sizes_func pd.sizes set_sizes rows) =
  map (transformed sizes_func color_func) rows.
Proof.
  destruct sizes_func as [f |], color_func as [g |]; simpl; rewrite ?map_map;
    try (apply map_ext; intros [i gr s c]; reflexivity).
  rewrite <- (map_id rows) at 1. apply map_ext. intros [i gr s c]. reflexivity.
Qed.

Lemma transformed_entries (sizes_func color_func : option (Q -> Q))
    (rows : list pd.TidyRow) :
  map entry (map (transformed sizes_func color_func) rows) = map entry rows.
Proof. rewrite map_map. apply map_ext. intros r. reflexivity. Qed.

(** X2. A table in which two records are about the same (item, group)
    pair is rejected, whatever the other arguments are: [pivot] raises
    [ValueError]. *)
Theorem parse_rejects_duplicate_entries (rows : list pd.TidyRow)
    (sizes_key color_key : string) (selected_item : option (list string))
    (sizes_func color_func : option (Q -> Q)) :
  ~ NoDup (map entry rows) ->
  parse_from_tidy_data rows sizes_key color_key selected_item sizes_func color_func =
  raise (ValueError "Index contains duplicate entries, cannot reshape").
Proof.
  intros Hdup. unfold parse_from_tidy_data, pd.pivot.
  rewrite map_series_entries.
  destruct (pd.has_duplicate_entries (map (transformed sizes_func color_func) rows)) eqn:E.
  - reflexivity.
  - apply has_duplicate_entries_NoDup in E. rewrite transformed_entries in E. contradiction.
Qed.

Lemma parse_rejects_duplicate_entries_witness :
  parse_from_tidy_data
    [pd.mkTidyRow "a" "x" 1 2; pd.mkTidyRow "b" "x" 5 6; pd.mkTidyRow "a" "x" 3 4]
    "size" "color" None None None =
  raise (ValueError "Index contains duplicate entries, cannot reshape").
Proof.
  apply parse_rejects_duplicate_entries.
  intros Hnd. inversion Hnd as [| e es Hnotin _]; subst.
  apply Hnotin. simpl. right. left. reflexivity.
Defined.

(** ** The item axis *)

Lemma nth_error_rev_last {A : Type} (l : list A) :
  nth_error (rev l) (length l - 1) = hd_error l.
Proof.
  destruct l as [| a l]; [reflexivity |]. simpl.
  rewrite nth_error_app2 by (rewrite length_rev; lia).
  rewrite length_rev. replace (length l - 0 - length l) with 0 by lia. reflexivity.
Qed.

(** X3. Without [selected_item], every object that [parse_from_tidy_data]
    returns has one row per record of the table, in reverse order of the
    records: both frames are indexed by the item column reversed,
    [height_item] is the number of records, and the item of the first
    record labels the last row. *)
Theorem parse_item_axis_reversed (rows : list pd.TidyRow) (sizes_key color_key : string)
    (sizes_func color_func : option (Q -> Q)) (self : DotPlot) :
  parse_from_tidy_data rows sizes_key color_key None sizes_func color_func = inr self ->
  pd.index (size_data self) = rev (map pd.item rows) /\
  option_map pd.index (color_data self) = Some (rev (map pd.item rows)) /\
  height_item self = length rows /\
  nth_error (pd.index (size_data self)) (length rows - 1) =
    option_map pd.item (hd_error rows).
Proof.
  intros Hparse.
  destruct (parse_item_axis _ _ _ _ _ _ Hparse) as [Hsize Hcolor].
  split; [exact Hsize |]. split; [exact Hcolor |].
  assert (Hheight : height_item self = length (pd.index (size_data self))).
  { unfold parse_from_tidy_data in Hparse.
    destruct (pd.pivot _ _ _ _ _) as [e | df]; [discriminate |]. cbn [bind] in Hparse.
    destruct (pd.loc_rows _ df) as [e | df1]; [discriminate |]. cbn [bind ret] in Hparse.
    apply init_attributes in Hparse. destruct Hparse as (-> & _ & -> & _). reflexivity. }
  split.
  - rewrite Hheight, Hsize, length_rev, length_map. reflexivity.
  - rewrite Hsize. rewrite <- (length_map pd.item rows), nth_error_rev_last.
    now destruct rows.
Qed.

Lemma parse_item_axis_reversed_witness :
  pd.index (pd.mkDataFrame ["b"; "a"; "a"] ["x"; "y"] [[6; 0]; [2; 4]; [2; 4]]%Q : Frame)
    = rev (map pd.item
             [pd.mkTidyRow "a" "x" 1 2; pd.mkTidyRow "a" "y" 3 4; pd.mkTidyRow "b" "x" 5 6]).
Proof.
  apply (parse_item_axis_reversed
           [pd.mkTidyRow "a" "x" 1 2; pd.mkTidyRow "a" "y" 3 4; pd.mkTidyRow "b" "x" 5 6]
           "size" "color" None None
           (mkDotPlot
              (pd.mkDataFrame ["b"; "a"; "a"] ["x"; "y"] [[6; 0]; [2; 4]; [2; 4]]%Q)
              (Some (pd.mkDataFrame ["b"; "a"; "a"] ["x"; "y"] [[5; 0]; [1; 3]; [1; 3]]%Q))
              3 2 None)).
  reflexivity.
Defined.

(** ** The cells of the two frames *)

Lemma rows_labelled_repeat {V : Type} (rowf : string -> list V) (ix : list string)
    (l : string) :
  pd.rows_labelled l ix (map rowf ix) = repeat (rowf l) (occurrences l ix).
Proof.
  unfold pd.rows_labelled, occurrences. induction ix as [| a ix IH]; [reflexivity |].
  simpl. destruct (String.eqb a l) eqn:E; [| exact IH].
  apply String.eqb_eq in E. subst a. simpl. now rewrite IH.
Qed.

Lemma occurrences_pos (l : string) (ix : list string) :
  0 < occurrences l ix <-> In l ix.
Proof.
  unfold occurrences. induction ix as [| a ix IH]; simpl; [split; [lia | tauto] |].
  destruct (String.eqb a l) eqn:E.
  - apply String.eqb_eq in E. simpl. split; [now left | lia].
  - rewrite IH. split; [now right |]. intros [-> | Hin]; [| assumption].
    now rewrite String.eqb_refl in E.
Qed.

(** A string without underscore that begins [s_g] begins [s]. *)
Lemma prefix_plain (p s g : string) :
  has_underscore p = false ->
  String.prefix p (s ++ "_" ++ g) = true -> String.prefix p s = true.
Proof.
  revert s. induction p as [| c p IH]; intros s Hplain; [now destruct s |].
  simpl in Hplain. apply orb_false_iff in Hplain. destruct Hplain as [Hc Hp].
  destruct s as [| d s]; simpl.
  - destruct (ascii_dec c "_") as [-> | Hne]; [discriminate | discriminate].
  - destruct (ascii_dec c d); [now apply IH | discriminate].
Qed.

Lemma nth_error_position {B : Type} (h : string -> B) (g : string) (axis : list string) :
  In g axis -> nth_error (map h axis) (position g axis) = Some (h g).
Proof.
  induction axis as [| a axis IH]; intros Hin; [destruct Hin |]. simpl.
  destruct (String.eqb a g) eqn:E.
  - apply String.eqb_eq in E. now subst a.
  - simpl. apply IH. destruct Hin as [-> | Hin]; [| assumption].
    now rewrite String.eqb_refl in E.
Qed.

Lemma plain_key_columns (key : string) (groups : list string) :
  has_underscore key = false ->
  map (fun g => strip_key (flatten_label (key, g))) groups = groups.
Proof.
  intros Hplain. rewrite <- (map_id groups) at 2. apply map_ext. intros g.
  now apply strip_key_flatten_label_iff.
Qed.

(** Looking a cell up by its labels in a frame laid out over an item
    axis and the groups. *)
Lemma cell_at_frame (key : string) (axis groups : list string) (h : string -> string -> Q)
    (i g : string) :
  has_underscore key = false -> In i axis -> In g groups ->
  cell_at (pd.mkDataFrame axis
             (map (fun g => strip_key (flatten_label (key, g))) groups)
             (map (fun i => map (h i) groups) axis)) i g = Some (h i g).
Proof.
  intros Hplain Hi Hg. unfold cell_at. cbn [pd.index pd.columns pd.values].
  rewrite (rows_labelled_repeat (fun i => map (h i) groups)).
  apply occurrences_pos in Hi. destruct (occurrences i axis) as [| n]; [lia |].
  cbn [repeat]. rewrite (plain_key_columns key groups Hplain).
  now apply nth_error_position.
Qed.

(** X4. For a table with one record per (item, group) pair and two keys
    without underscore neither of which begins with the other,
    [parse_from_tidy_data] returns an object in which, for every record,
    the cell of its item and group holds the record's (transformed) colour
    in [size_data] and its (transformed) size in [color_data], and in
    which the cell of an item and a group that share no record holds 0
    in both frames. *)
Theorem parse_cells (rows : list pd.TidyRow) (sizes_key color_key : string)
    (sizes_func color_func : option (Q -> Q)) :
  NoDup (map entry rows) ->
  has_underscore sizes_key = false ->
  has_underscore color_key = false ->
  py.startswith sizes_key color_key = false ->
  py.startswith color_key sizes_key = false ->
  exists self colors,
    parse_from_tidy_data rows sizes_key color_key None sizes_func color_func = ret self /\
    color_data self = Some colors /\
    (forall r, In r rows ->
       cell_at (size_data self) (pd.item r) (pd.group r) =
         Some (pd.color (transformed sizes_func color_func r)) /\
       cell_at colors (pd.item r) (pd.group r) =
         Some (pd.sizes (transformed sizes_func color_func r))) /\
    (forall i g, In i (map pd.item rows) -> In g (map pd.group rows) ->
       ~ In (i, g) (map entry rows) ->
       cell_at (size_data self) i g = Some 0%Q /\ cell_at colors i g = Some 0%Q).
Proof.
  intros Hnd Hsk Hck Hsc Hcs.
  pose proof (parse_frames rows sizes_key color_key sizes_func color_func) as Hframes.
  cbv zeta in Hframes. rewrite map_series_entries in Hframes.
  set (table := map (transformed sizes_func color_func) rows) in *.
  set (groups := pd.sorted_unique (map pd.group rows)) in *.
  set (items := rev (map pd.item rows)) in *.
  rewrite Hframes; clear Hframes.
  2: now apply has_duplicate_entries_NoDup.
  2: { intros g _. rewrite flatten_label_app. unfold py.startswith in *.
       destruct (String.prefix color_key (sizes_key ++ "_" ++ g)) eqn:E; [| reflexivity].
       apply prefix_plain in E; [congruence | assumption]. }
  2: { intros g _. rewrite flatten_label_app. unfold py.startswith in *.
       destruct (String.prefix sizes_key (color_key ++ "_" ++ g)) eqn:E; [| reflexivity].
       apply prefix_plain in E; [congruence | assumption]. }
  assert (Hdup : pd.has_duplicate_entries table = false).
  { apply has_duplicate_entries_NoDup. subst table. now rewrite transformed_entries. }
  do 2 eexists. split; [reflexivity |]. split; [reflexivity |].
  cbn [size_data]. split.
  - intros r Hr.
    assert (Hi : In (pd.item r) items) by (subst items; rewrite <- in_rev; now apply in_map).
    assert (Hg : In (pd.group r) groups)
      by (subst groups; apply in_sorted_unique; now apply in_map).
    assert (Hr' : In (transformed sizes_func color_func r) table)
      by (subst table; now apply in_map).
    split.
    + rewrite (cell_at_frame color_key items groups
                 (fun i g => filled (pd.pivot_cell table pd.color i g))) by assumption.
      pose proof (pivot_cell_present table pd.color _ Hdup Hr') as Hcell.
      cbn [transformed pd.item pd.group] in Hcell. rewrite Hcell. reflexivity.
    + rewrite (cell_at_frame sizes_key items groups
                 (fun i g => filled (pd.pivot_cell table pd.sizes i g))) by assumption.
      pose proof (pivot_cell_present table pd.sizes _ Hdup Hr') as Hcell.
      cbn [transformed pd.item pd.group] in Hcell. rewrite Hcell. reflexivity.
  - intros i g Hi Hg Habsent.
    assert (Hi' : In i items) by (subst items; now rewrite <- in_rev).
    assert (Hg' : In g groups) by (subst groups; now apply in_sorted_unique).
    assert (Hnone : forall r', In r' table -> ~ (pd.item r' = i /\ pd.group r' = g)).
    { intros r' Hr' [Hri Hrg]. subst table. apply in_map_iff in Hr'.
      destruct Hr' as [r [<- Hr]]. apply Habsent. apply in_map_iff. exists r.
      split; [| assumption]. unfold entry. simpl in Hri, Hrg. congruence. }
    split.
    + rewrite (cell_at_frame color_key items groups
                 (fun i g => filled (pd.pivot_cell table pd.color i g))) by assumption.
      now rewrite (pivot_cell_absent table pd.color i g Hnone).
    + rewrite (cell_at_frame sizes_key items groups
                 (fun i g => filled (pd.pivot_cell table pd.sizes i g))) by assumption.
      now rewrite (pivot_cell_absent table pd.sizes i g Hnone).
Qed.

Lemma parse_cells_witness :
  exists self colors,
    parse_from_tidy_data
      [pd.mkTidyRow "a" "x" 1 2; pd.mkTidyRow "a" "y" 3 4; pd.mkTidyRow "b" "x" 5 6]
      "size" "color" None None None = ret self /\
    color_data self = Some colors /\
    cell_at (size_data self) "a" "y" = Some 4%Q /\
    cell_at colors "a" "y" = Some 3%Q /\
    cell_at (size_data self) "b" "y" = Some 0%Q /\
    cell_at colors "b" "y" = Some 0%Q.
Proof.
  destruct (parse_cells
              [pd.mkTidyRow "a" "x" 1 2; pd.mkTidyRow "a" "y" 3 4; pd.mkTidyRow "b" "x" 5 6]
              "size" "color" None None
              ltac:(apply has_duplicate_entries_NoDup; reflexivity)
              eq_refl eq_refl eq_refl eq_refl)
    as (self & colors & Hparse & Hcolors & Hpresent & Habsent).
  exists self, colors. split; [exact Hparse |]. split; [exact Hcolors |].
  destruct (Hpresent (pd.mkTidyRow "a" "y" 3 4)) as [H1 H2]; [right; now left |].
  destruct (Habsent "b" "y") as [H3 H4].
  - right. right. now left.
  - right. now left.
  - simpl. intros [H | [H | [H | []]]]; discriminate.
  - repeat split; assumption.
Defined.

(** ** What the scatter shows *)






(** ** An object without items *)

(** X6. An object without items cannot be plotted: [plot] raises
    [ValueError] while setting up the figure (the longest label of no
    label is NaN) and leaves every attribute of the object as it was,
    [resized_size_data] included. *)
Theorem plot_without_items_raises
    (legend_elements : mpl.PathCollection -> (Q -> Q) -> string ->
                       list mpl.Handle * list string)
    (self : DotPlot) (args : PlotArgs) :
  pd.index (size_data self) = [] ->
  plot legend_elements args self =
  (raise (ValueError "cannot convert float NaN to integer"), self).
Proof.
  intros Hnil. unfold plot, mbind at 1 2. simpl. unfold lift.
  unfold __get_figure, text_max. rewrite Hnil. reflexivity.
Qed.

Lemma plot_without_items_raises_witness :
  plot four_entries no_args
    (mkDotPlot (pd.mkDataFrame [] ["x"] []) (Some (pd.mkDataFrame [] ["x"] [])) 0 1 None) =
  (raise (ValueError "cannot convert float NaN to integer"),
   mkDotPlot (pd.mkDataFrame [] ["x"] []) (Some (pd.mkDataFrame [] ["x"] [])) 0 1 None).
Proof.
  apply plot_without_items_raises. reflexivity.
Defined.
